(** * OpenSlide JPEG decode core: a shallow embedding of
      [src/openslide-decode-jpeg.c] and the properties of its error bridge,
      dimension probe, pixel decoder and associated-image registration.

    The C code drives libjpeg, which reports fatal errors by calling the
    installed [error_exit] handler (which here never returns: it
    [longjmp]s) and warnings by calling [emit_message].  The embedding is a
    state monad with three kinds of outcome (normal return, a pending
    [longjmp], abnormal termination), in which libjpeg's entry points are
    parameters: each call is described by the sequence of handler
    invocations it makes before it returns or gives up. *)

From Stdlib Require Import ZArith.
From Stdlib.Strings Require Import Byte.
From stdpp Require Import base numbers option list strings pretty gmap.

Local Open Scope Z_scope.

(** ** GLib errors

    [GError] and the functions of GLib's error reporting that the code
    calls, as the GLib reference describes them. *)

Module GLib.

Inductive GQuark := OPENSLIDE_ERROR | G_FILE_ERROR.

Record GError := mkGError {
  domain : GQuark;
  code : Z;
  message : string
}.

(** A [GError **] argument: [None] is a NULL pointer (the caller does not
    want the error), [Some None] an empty slot, [Some (Some e)] a slot
    that already holds [e]. *)
Definition error_slot := option (option GError).

(** [g_set_error (err, ...)]: does nothing for a NULL [err]; an occupied
    slot is kept (GLib only warns). *)
Definition g_set_error (err : error_slot) (e : GError) : error_slot :=
  match err with
  | None => None
  | Some None => Some (Some e)
  | Some (Some old) => Some (Some old)
  end.

(** [g_set_error (&p, ...)] on a pointer variable [p], whose address is
    never NULL. *)
Definition g_set_error_at (p : option GError) (e : GError) : option GError :=
  match p with
  | None => Some e
  | Some old => Some old
  end.

(** [g_propagate_error (dest, src)]: [src] is moved into an empty [dest];
    it is dropped if [dest] is NULL or occupied; a NULL [src] fails the
    precondition check and leaves [dest] alone. *)
Definition g_propagate_error (dest : error_slot) (src : option GError)
  : error_slot :=
  match src with
  | None => dest
  | Some e =>
      match dest with
      | None => None
      | Some None => Some (Some e)
      | Some (Some old) => Some (Some old)
      end
  end.

(** [g_prefix_error (err, prefix)]: prepends to the message of a set
    error, and does nothing otherwise. *)
Definition g_prefix_error (err : error_slot) (prefix : string) : error_slot :=
  match err with
  | Some (Some e) =>
      Some (Some (mkGError (domain e) (code e) (prefix +:+ message e)))
  | _ => err
  end.

End GLib.
Import GLib.

Definition OPENSLIDE_ERROR_FAILED : Z := 0.

(** ** Fixed-width integers *)

(** Conversion of a [JDIMENSION] (unsigned int) to [int32_t]. *)
Definition to_int32 (z : Z) : Z := (z + 2^31) mod 2^32 - 2^31.

(** [printf]'s [%d]. *)
Definition fmt_d (z : Z) : string := pretty z.

(** ** libjpeg constants *)

Definition JPEG_SUSPENDED : Z := 0.
Definition JPEG_HEADER_OK : Z := 1.
Definition JPEG_HEADER_TABLES_ONLY : Z := 2.

Inductive J_COLOR_SPACE := JCS_UNKNOWN | JCS_GRAYSCALE | JCS_RGB.

(** ** The error manager *)

(** The function pointers of [struct jpeg_error_mgr]: either the handlers
    of this file or the ones [jpeg_std_error] installs. *)
Inductive error_exit_fn := fn_my_error_exit | fn_std_error_exit.
Inductive output_message_fn := fn_my_output_message | fn_std_output_message.
Inductive emit_message_fn := fn_my_emit_message | fn_std_emit_message.

(** [struct openslide_jpeg_error_mgr].  [msg_text] stands for the pair
    [msg_code]/[msg_parm] of the base structure, as [format_message]
    renders it.  There is one [jmp_buf] per call, so [env] is not
    represented: a [longjmp] always targets the enclosing [setjmp]. *)
Record openslide_jpeg_error_mgr := mkErrorMgr {
  error_exit : error_exit_fn;
  output_message : output_message_fn;
  emit_message : emit_message_fn;
  msg_text : string;
  err : option GError
}.

(** A zeroed [struct openslide_jpeg_error_mgr] after [jpeg_std_error]. *)
Definition jpeg_std_error : openslide_jpeg_error_mgr :=
  mkErrorMgr fn_std_error_exit fn_std_output_message fn_std_emit_message
             "" None.

(** ** Files and sources *)

Record FILE := mkFILE { f_path : string; f_pos : Z }.

(** ** External calls, in the order they are made *)

Inductive lib_entry :=
| L_create_decompress | L_stdio_src | L_mem_src | L_read_header
| L_calc_output_dimensions | L_start_decompress | L_read_scanlines
| L_destroy_decompress.

Inductive event :=
| EvFopen (filename : string)
| EvFseeko (offset : Z)
| EvFclose
| EvIoError (msg : string)
| EvSliceNew
| EvJpeg (entry : lib_entry)
| EvSliceFree.

Inductive fault :=
| AssertionFailed | NullDereference | IndeterminateRead | ProcessExit
| OutOfFuel.

Inductive outcome (A : Type) :=
| Ok (a : A)
| Jump
| Stuck (why : fault).
Arguments Ok {A} a.
Arguments Jump {A}.
Arguments Stuck {A} why.

(** [struct associated_image], with the [w], [h] and [ops] of its base
    structure; the only operations table of this file is
    [jpeg_associated_ops]. *)
Inductive associated_image_ops := jpeg_associated_ops.

Record associated_image := mkAssociatedImage {
  ops : associated_image_ops;
  img_w : Z;
  img_h : Z;
  filename : string;
  offset : Z
}.

(** The scanline staging rows [JSAMPARRAY buffer], by row and column. *)
Definition staging := Z -> Z -> byte.

Definition sample (b : byte) : Z := Z.of_N (Byte.to_N b).

Section Decoder.

(** libjpeg's private decompression state. *)
Context {lib_private : Type}.

(** [struct jpeg_decompress_struct] without its [err] pointer: the fields
    the library owns, of which the code reads the public ones. *)
Record jpeg_fields := mkFields {
  out_color_space : J_COLOR_SPACE;
  output_width : Z;
  output_height : Z;
  output_components : Z;
  rec_outbuf_height : Z;
  output_scanline : Z;
  priv : lib_private
}.

Record jpeg_decompress_struct := mkCinfo {
  cinfo_err : option openslide_jpeg_error_mgr;
  fields : jpeg_fields
}.

(** What one call into the library does, as seen from outside: it invokes
    [emit_message] any number of times, and ends either by returning or
    by invoking [error_exit].  Each node carries the fields as the
    library has left them at that point. *)
Inductive libcall (A : Type) :=
| LibReturn (c : jpeg_fields) (a : A)
| LibEmit (c : jpeg_fields) (msg_level : Z) (text : string) (k : libcall A)
| LibErrorExit (c : jpeg_fields) (text : string).
Arguments LibReturn {A} c a.
Arguments LibEmit {A} c msg_level text k.
Arguments LibErrorExit {A} c text.

(** The library and the two source managers. *)
Class LibJpeg := {
  priv0 : lib_private;
  jpeg_create_decompress : jpeg_fields -> libcall unit;
  _openslide_jpeg_stdio_src : FILE -> jpeg_fields -> libcall unit;
  _openslide_jpeg_mem_src :
    option (list byte) -> Z -> jpeg_fields -> libcall unit;
  jpeg_read_header : jpeg_fields -> libcall Z;
  jpeg_calc_output_dimensions : jpeg_fields -> libcall unit;
  jpeg_start_decompress : jpeg_fields -> libcall unit;
  jpeg_read_scanlines : Z -> jpeg_fields -> libcall (Z * staging)
}.

(** The file helpers of [openslide-util.c]: [_openslide_fopen] yields a
    handle or the error it sets, [fseeko_fails] tells whether
    [fseeko (f, offset, SEEK_SET)] returns -1, and [io_error] is the
    [GError] that [_openslide_io_error] builds from a message. *)
Class FileSys := {
  _openslide_fopen : string -> FILE + GError;
  fseeko_fails : FILE -> Z -> bool;
  io_error : string -> GError
}.

Context {lib : LibJpeg} {fs : FileSys}.

(** ** Program state

    The session structure, the caller's error slot and out-parameters, the
    destination buffer, the registry of the slide, and the external calls
    made so far.  [_dest] is written through a [uint32_t *] or through a
    [uint8_t *]; the two views are kept as two maps from element index to
    element, and how the bytes of a word lie in memory is not part of the
    model. *)

Record state := mkState {
  cinfo : jpeg_decompress_struct;
  caller_err : error_slot;          (* GError **err *)
  out_w : option Z;                 (* *w, None while indeterminate *)
  out_h : option Z;                 (* *h *)
  dest32 : gmap Z Z;                (* _dest viewed as uint32_t[] *)
  dest8 : gmap Z byte;              (* _dest viewed as uint8_t[] *)
  associated_images : gmap string associated_image;
  trace : list event
}.

Definition M (A : Type) : Type := state -> outcome A * state.

Definition ret {A} (a : A) : M A := fun s => (Ok a, s).

Definition bind {A B} (m : M A) (k : A -> M B) : M B :=
  fun s =>
    match m s with
    | (Ok a, s') => k a s'
    | (Jump, s') => (Jump, s')
    | (Stuck why, s') => (Stuck why, s')
    end.

Notation "x <- m ;; k" := (bind m (fun x => k))
  (at level 100, m at next level, right associativity).
Notation "m ;;; k" := (bind m (fun _ => k))
  (at level 100, right associativity).

Definition longjmp {A} : M A := fun s => (Jump, s).
Definition stuck {A} (why : fault) : M A := fun s => (Stuck why, s).
Definition get : M state := fun s => (Ok s, s).
Definition modify (f : state -> state) : M unit := fun s => (Ok tt, f s).

(** [if (setjmp (env) == 0) body else handler]: the state reached at the
    [longjmp] is the one the handler starts from. *)
Definition setjmp {A} (body handler : M A) : M A :=
  fun s =>
    match body s with
    | (Jump, s') => handler s'
    | r => r
    end.

Definition log (e : event) : M unit :=
  modify (fun s => mkState (cinfo s) (caller_err s) (out_w s) (out_h s)
                           (dest32 s) (dest8 s) (associated_images s)
                           (trace s ++ [e])).

Definition set_cinfo (c : jpeg_decompress_struct) : M unit :=
  modify (fun s => mkState c (caller_err s) (out_w s) (out_h s)
                           (dest32 s) (dest8 s) (associated_images s)
                           (trace s)).

Definition set_fields (c : jpeg_fields) : M unit :=
  modify (fun s => mkState (mkCinfo (cinfo_err (cinfo s)) c)
                           (caller_err s) (out_w s) (out_h s)
                           (dest32 s) (dest8 s) (associated_images s)
                           (trace s)).

Definition set_jerr (j : option openslide_jpeg_error_mgr) : M unit :=
  modify (fun s => mkState (mkCinfo j (fields (cinfo s)))
                           (caller_err s) (out_w s) (out_h s)
                           (dest32 s) (dest8 s) (associated_images s)
                           (trace s)).

Definition set_caller_err (e : error_slot) : M unit :=
  modify (fun s => mkState (cinfo s) e (out_w s) (out_h s)
                           (dest32 s) (dest8 s) (associated_images s)
                           (trace s)).

Definition set_out_dims (w h : Z) : M unit :=
  modify (fun s => mkState (cinfo s) (caller_err s) (Some w) (Some h)
                           (dest32 s) (dest8 s) (associated_images s)
                           (trace s)).

Definition set_dest32 (m : gmap Z Z) : M unit :=
  modify (fun s => mkState (cinfo s) (caller_err s) (out_w s) (out_h s)
                           m (dest8 s) (associated_images s) (trace s)).

Definition set_dest8 (m : gmap Z byte) : M unit :=
  modify (fun s => mkState (cinfo s) (caller_err s) (out_w s) (out_h s)
                           (dest32 s) m (associated_images s) (trace s)).

Definition set_associated_images (r : gmap string associated_image)
  : M unit :=
  modify (fun s => mkState (cinfo s) (caller_err s) (out_w s) (out_h s)
                           (dest32 s) (dest8 s) r (trace s)).

(** Fresh automatic variables [int32_t w, h]. *)
Definition declare_out_dims : M unit :=
  modify (fun s => mkState (cinfo s) (caller_err s) None None
                           (dest32 s) (dest8 s) (associated_images s)
                           (trace s)).

(** Dereferences [cinfo->err]. *)
Definition get_jerr : M openslide_jpeg_error_mgr :=
  s <- get ;;
  match cinfo_err (cinfo s) with
  | Some j => ret j
  | None => stuck NullDereference
  end.

Definition get_fields : M jpeg_fields :=
  s <- get ;; ret (fields (cinfo s)).

(** [g_set_error (err, OPENSLIDE_ERROR, OPENSLIDE_ERROR_FAILED, msg)] on
    the caller's slot. *)
Definition set_error (msg : string) : M unit :=
  s <- get ;;
  set_caller_err
    (g_set_error (caller_err s)
                 (mkGError OPENSLIDE_ERROR OPENSLIDE_ERROR_FAILED msg)).

(** ** The handlers (lines 48-74) *)

Definition my_output_message : M unit :=
  jerr <- get_jerr ;;
  let buffer := msg_text jerr in
  set_jerr (Some (mkErrorMgr
    (error_exit jerr) (output_message jerr) (emit_message jerr)
    (msg_text jerr)
    (g_set_error_at (err jerr)
       (mkGError OPENSLIDE_ERROR OPENSLIDE_ERROR_FAILED buffer)))).

(** The standard handlers write to stderr; [error_exit] then calls
    [exit]. *)
Definition call_output_message (f : output_message_fn) : M unit :=
  match f with
  | fn_my_output_message => my_output_message
  | fn_std_output_message => ret tt
  end.

Definition my_error_exit : M unit :=
  jerr <- get_jerr ;;
  call_output_message (output_message jerr) ;;;
  longjmp.

Definition call_error_exit (f : error_exit_fn) : M unit :=
  match f with
  | fn_my_error_exit => my_error_exit
  | fn_std_error_exit => stuck ProcessExit
  end.

Definition my_emit_message (msg_level : Z) : M unit :=
  if msg_level <? 0 then
    jerr <- get_jerr ;;
    call_error_exit (error_exit jerr)
  else ret tt.

Definition call_emit_message (f : emit_message_fn) (msg_level : Z) : M unit :=
  match f with
  | fn_my_emit_message => my_emit_message msg_level
  | fn_std_emit_message => ret tt
  end.

(** ** Running a library call under the installed handlers *)

Definition set_msg (text : string) : M unit :=
  jerr <- get_jerr ;;
  set_jerr (Some (mkErrorMgr (error_exit jerr) (output_message jerr)
                             (emit_message jerr) text (err jerr))).

Fixpoint run_libcall {A} (c : libcall A) : M A :=
  match c with
  | LibReturn f a => set_fields f ;;; ret a
  | LibEmit f msg_level text k =>
      set_fields f ;;;
      set_msg text ;;;
      jerr <- get_jerr ;;
      call_emit_message (emit_message jerr) msg_level ;;;
      run_libcall k
  | LibErrorExit f text =>
      set_fields f ;;;
      set_msg text ;;;
      jerr <- get_jerr ;;
      call_error_exit (error_exit jerr) ;;;
      stuck ProcessExit
  end.

Definition call_lib {A} (e : lib_entry) (f : jpeg_fields -> libcall A) : M A :=
  log (EvJpeg e) ;;;
  c <- get_fields ;;
  run_libcall (f c).

(** ** Session lifecycle (lines 76-115) *)

(** The structure as [g_slice_new0] returns it. *)
Definition zero_fields : jpeg_fields :=
  mkFields JCS_UNKNOWN 0 0 0 0 0 priv0.

Definition _openslide_jpeg_create_decompress : M unit :=
  log EvSliceNew ;;;
  set_cinfo (mkCinfo None zero_fields).

Definition _openslide_jpeg_init_decompress : M unit :=
  let jerr := jpeg_std_error in
  let jerr := mkErrorMgr fn_my_error_exit fn_my_output_message
                         fn_my_emit_message (msg_text jerr) (err jerr) in
  set_jerr (Some jerr) ;;;
  call_lib L_create_decompress jpeg_create_decompress.

Definition g_assert (b : bool) : M unit :=
  if b then ret tt else stuck AssertionFailed.

Definition is_my_error_exit (f : error_exit_fn) : bool :=
  match f with fn_my_error_exit => true | fn_std_error_exit => false end.

Definition _openslide_jpeg_propagate_error : M unit :=
  jerr <- get_jerr ;;
  g_assert (is_my_error_exit (error_exit jerr)) ;;;
  s <- get ;;
  set_caller_err (g_propagate_error (caller_err s) (err jerr)) ;;;
  set_jerr (Some (mkErrorMgr (error_exit jerr) (output_message jerr)
                             (emit_message jerr) (msg_text jerr) None)).

(** [jpeg_destroy_decompress] releases the library's memory and calls no
    handler. *)
Definition _openslide_jpeg_destroy_decompress : M unit :=
  log (EvJpeg L_destroy_decompress) ;;;
  s <- get ;;
  match cinfo_err (cinfo s) with
  | Some jerr =>
      g_assert (is_my_error_exit (error_exit jerr)) ;;;
      g_assert (match err jerr with None => true | Some _ => false end) ;;;
      set_jerr None
  | None => ret tt
  end ;;;
  log EvSliceFree.

(** ** The dimension probe (lines 117-184) *)

Definition header_rejected (header_result : Z) : bool :=
  negb (header_result =? JPEG_HEADER_OK)
  && negb (header_result =? JPEG_HEADER_TABLES_ONLY).

Definition jpeg_get_dimensions
    (f : option FILE) (buf : option (list byte)) (buflen : Z) : M bool :=
  _openslide_jpeg_create_decompress ;;;
  result <-
    setjmp
      (_openslide_jpeg_init_decompress ;;;
       match f with
       | Some f' => call_lib L_stdio_src (_openslide_jpeg_stdio_src f')
       | None => call_lib L_mem_src (_openslide_jpeg_mem_src buf buflen)
       end ;;;
       header_result <- call_lib L_read_header jpeg_read_header ;;
       if header_rejected header_result then
         set_error "Couldn't read JPEG header" ;;;
         ret false
       else
         call_lib L_calc_output_dimensions jpeg_calc_output_dimensions ;;;
         c <- get_fields ;;
         set_out_dims (to_int32 (output_width c))
                      (to_int32 (output_height c)) ;;;
         ret true)
      (_openslide_jpeg_propagate_error ;;;
       ret false) ;;
  _openslide_jpeg_destroy_decompress ;;;
  ret result.

Definition _openslide_io_error (msg : string) : M unit :=
  log (EvIoError msg) ;;;
  s <- get ;;
  set_caller_err (g_set_error (caller_err s) (io_error msg)).

(** [_openslide_fopen (filename, "rb", err)]: NULL comes with the error
    set. *)
Definition fopen (path : string) : M (option FILE) :=
  log (EvFopen path) ;;;
  match _openslide_fopen path with
  | inl f => ret (Some f)
  | inr e =>
      s <- get ;;
      set_caller_err (g_set_error (caller_err s) e) ;;;
      ret None
  end.

(** [offset && fseeko (f, offset, SEEK_SET) == -1], with the handle as the
    call leaves it. *)
Definition seek_fails (f : FILE) (off : Z) : M (bool * FILE) :=
  if off =? 0 then ret (false, f)
  else
    log (EvFseeko off) ;;;
    if fseeko_fails f off then ret (true, f)
    else ret (false, mkFILE (f_path f) off).

Definition _openslide_jpeg_read_dimensions (path : string) (off : Z)
  : M bool :=
  fo <- fopen path ;;
  match fo with
  | None => ret false
  | Some f =>
      sk <- seek_fails f off ;;
      let '(failed, f') := sk in
      if (failed : bool) then
        _openslide_io_error "Cannot seek to offset" ;;;
        log EvFclose ;;;
        ret false
      else
        success <- jpeg_get_dimensions (Some f') None 0 ;;
        log EvFclose ;;;
        ret success
  end.

Definition _openslide_jpeg_decode_buffer_dimensions
    (buf : option (list byte)) (len : Z) : M bool :=
  jpeg_get_dimensions None buf len.

(** ** The pixel decoder (lines 186-329) *)

(** Line 259: [0xFF000000 | R << 16 | G << 8 | B]. *)
Definition pack_argb (r g b : byte) : Z :=
  Z.lor (Z.lor (Z.lor 0xFF000000 (Z.shiftl (sample r) 16))
               (Z.shiftl (sample g) 8))
        (sample b).

(** Lines 252-254: [n] more turns of the loop over [i]. *)
Fixpoint copy_gray (n : nat) (i : Z) (row : Z -> byte) (d8 : Z)
    (m : gmap Z byte) : gmap Z byte :=
  match n with
  | O => m
  | S n' => copy_gray n' (i + 1) row d8 (<[d8 + i := row i]> m)
  end.

(** Lines 258-263. *)
Fixpoint copy_rgb (n : nat) (i : Z) (row : Z -> byte) (d32 : Z)
    (m : gmap Z Z) : gmap Z Z :=
  match n with
  | O => m
  | S n' =>
      copy_rgb n' (i + 1) row d32
        (<[d32 + i := pack_argb (row (i * 3 + 0)) (row (i * 3 + 1))
                                (row (i * 3 + 2))]> m)
  end.

(** Lines 247-270: the rows of one batch; [d32] and [d8] are the two
    cursors into the destination, counted in elements. *)
Fixpoint copy_rows (rows_read : nat) (cur_buffer : Z) (buffer : staging)
    (d32 d8 : Z) : M (Z * Z) :=
  match rows_read with
  | O => ret (d32, d8)
  | S rows_read' =>
      c <- get_fields ;;
      s <- get ;;
      let n := Z.to_nat (to_int32 (output_width c)) in
      if output_components c =? 1 then
        set_dest8 (copy_gray n 0 (buffer cur_buffer) d8 (dest8 s)) ;;;
        copy_rows rows_read' (cur_buffer + 1) buffer
                  d32 (d8 + output_width c)
      else
        set_dest32 (copy_rgb n 0 (buffer cur_buffer) d32 (dest32 s)) ;;;
        copy_rows rows_read' (cur_buffer + 1) buffer
                  (d32 + output_width c) d8
  end.

(** Lines 242-271; the library decides how many batches there are, so the
    loop is bounded by [fuel]. *)
Fixpoint decompress (fuel : nat) (d32 d8 : Z) : M unit :=
  c <- get_fields ;;
  if output_scanline c <? output_height c then
    match fuel with
    | O => stuck OutOfFuel
    | S fuel' =>
        batch <-
          call_lib L_read_scanlines
                   (jpeg_read_scanlines (rec_outbuf_height c)) ;;
        let '(rows_read, buffer) := batch in
        cursors <- copy_rows (Z.to_nat rows_read) 0 buffer d32 d8 ;;
        let '(d32', d8') := cursors in
        decompress fuel' d32' d8'
    end
  else ret tt.

Definition set_out_color_space (cs : J_COLOR_SPACE) : M unit :=
  c <- get_fields ;;
  set_fields (mkFields cs (output_width c) (output_height c)
                       (output_components c) (rec_outbuf_height c)
                       (output_scanline c) (priv c)).

Definition mismatch_message (w h width height : Z) : string :=
  "Dimensional mismatch reading JPEG, expected " +:+ fmt_d w +:+ "x"
    +:+ fmt_d h +:+ ", got " +:+ fmt_d width +:+ "x" +:+ fmt_d height.

(** The staging rows are allocated at lines 196 and 232-237 and released
    at lines 280-283; their contents are what [jpeg_read_scanlines]
    delivers, and the allocations themselves are not represented. *)
Definition jpeg_decode (fuel : nat)
    (f : option FILE) (buf : option (list byte)) (buflen : Z)
    (grayscale : bool) (w h : Z) : M bool :=
  _openslide_jpeg_create_decompress ;;;
  result <-
    setjmp
      (_openslide_jpeg_init_decompress ;;;
       match f with
       | Some f' => call_lib L_stdio_src (_openslide_jpeg_stdio_src f')
       | None => call_lib L_mem_src (_openslide_jpeg_mem_src buf buflen)
       end ;;;
       header_result <- call_lib L_read_header jpeg_read_header ;;
       if header_rejected header_result then
         set_error "Couldn't read JPEG header" ;;;
         ret false
       else
         set_out_color_space (if grayscale then JCS_GRAYSCALE else JCS_RGB) ;;;
         call_lib L_start_decompress jpeg_start_decompress ;;;
         c <- get_fields ;;
         let width := to_int32 (output_width c) in
         let height := to_int32 (output_height c) in
         if negb (w =? width) || negb (h =? height) then
           set_error (mismatch_message w h width height) ;;;
           ret false
         else
           decompress fuel 0 0 ;;;
           ret true)
      (_openslide_jpeg_propagate_error ;;;
       ret false) ;;
  _openslide_jpeg_destroy_decompress ;;;
  ret result.

Definition _openslide_jpeg_read (fuel : nat) (path : string) (off : Z)
    (w h : Z) : M bool :=
  fo <- fopen path ;;
  match fo with
  | None => ret false
  | Some f =>
      sk <- seek_fails f off ;;
      let '(failed, f') := sk in
      if (failed : bool) then
        _openslide_io_error "Cannot seek to offset" ;;;
        log EvFclose ;;;
        ret false
      else
        success <- jpeg_decode fuel (Some f') None 0 false w h ;;
        log EvFclose ;;;
        ret success
  end.

Definition _openslide_jpeg_decode_buffer (fuel : nat)
    (buf : option (list byte)) (len : Z) (w h : Z) : M bool :=
  jpeg_decode fuel None buf len false w h.

Definition _openslide_jpeg_decode_buffer_gray (fuel : nat)
    (buf : option (list byte)) (len : Z) (w h : Z) : M bool :=
  jpeg_decode fuel None buf len true w h.

(** ** Associated images (lines 331-375) *)

Definition get_associated_image_data (fuel : nat) (img : associated_image)
  : M bool :=
  _openslide_jpeg_read fuel (filename img) (offset img)
                       (img_w img) (img_h img).

Definition _openslide_jpeg_add_associated_image
    (name : string) (path : string) (off : Z) : M bool :=
  declare_out_dims ;;;
  ok <- _openslide_jpeg_read_dimensions path off ;;
  if (ok : bool) then
    s <- get ;;
    match out_w s, out_h s with
    | Some w, Some h =>
        let img := mkAssociatedImage jpeg_associated_ops w h path off in
        set_associated_images (<[name := img]> (associated_images s)) ;;;
        ret true
    | _, _ => stuck IndeterminateRead
    end
  else
    s <- get ;;
    set_caller_err
      (g_prefix_error (caller_err s)
         ("Can't read " +:+ name +:+ " associated image: ")) ;;;
    ret false.

(** ** The library's side of a session

    What the calls of a session come to when the handlers of this file
    are in place, read off the library alone: a call returns (with the
    fields and the last message text it left) unless it reports a fatal
    error or a warning first. *)

Inductive lib_verdict (A : Type) :=
| Returns (c : jpeg_fields) (msg : string) (a : A)
| Raises (c : jpeg_fields) (text : string).
Arguments Returns {A} c msg a.
Arguments Raises {A} c text.

Fixpoint verdict {A} (call : libcall A) (msg : string) : lib_verdict A :=
  match call with
  | LibReturn c a => Returns c msg a
  | LibEmit c msg_level text k =>
      if msg_level <? 0 then Raises c text else verdict k text
  | LibErrorExit c text => Raises c text
  end.

(** The same for a sequence of calls, with the entry points reached. *)
Inductive lib_result (A : Type) :=
| Returned (t : list lib_entry) (c : jpeg_fields) (msg : string) (a : A)
| Raised (t : list lib_entry) (c : jpeg_fields) (text : string).
Arguments Returned {A} t c msg a.
Arguments Raised {A} t c text.

Definition called {A} (e : lib_entry) (v : lib_verdict A) : lib_result A :=
  match v with
  | Returns c msg a => Returned [e] c msg a
  | Raises c text => Raised [e] c text
  end.

Definition prepend {A} (t : list lib_entry) (r : lib_result A)
  : lib_result A :=
  match r with
  | Returned t' c msg a => Returned (t ++ t') c msg a
  | Raised t' c text => Raised (t ++ t') c text
  end.

Definition and_then {A B} (r : lib_result A)
    (k : jpeg_fields -> string -> A -> lib_result B) : lib_result B :=
  match r with
  | Returned t c msg a => prepend t (k c msg a)
  | Raised t c text => Raised t c text
  end.

Definition source_entry (f : option FILE) : lib_entry :=
  match f with
  | Some _ => L_stdio_src
  | None => L_mem_src
  end.

Definition lib_source (f : option FILE) (buf : option (list byte))
    (buflen : Z) (c : jpeg_fields) : libcall unit :=
  match f with
  | Some f' => _openslide_jpeg_stdio_src f' c
  | None => _openslide_jpeg_mem_src buf buflen c
  end.

(** Creation, source set-up and [jpeg_read_header]. *)
Definition lib_header (f : option FILE) (buf : option (list byte))
    (buflen : Z) : lib_result Z :=
  and_then
    (called L_create_decompress
            (verdict (jpeg_create_decompress zero_fields) ""))
    (fun c1 m1 _ =>
       and_then
         (called (source_entry f) (verdict (lib_source f buf buflen c1) m1))
         (fun c2 m2 _ =>
            called L_read_header (verdict (jpeg_read_header c2) m2))).

(** The calls of the dimension probe: the header and, if it is accepted,
    [jpeg_calc_output_dimensions]. *)
Definition lib_probe (f : option FILE) (buf : option (list byte))
    (buflen : Z) : lib_result Z :=
  and_then (lib_header f buf buflen)
    (fun c m header_result =>
       if header_rejected header_result then Returned [] c m header_result
       else
         and_then
           (called L_calc_output_dimensions
                   (verdict (jpeg_calc_output_dimensions c) m))
           (fun c' m' _ => Returned [] c' m' header_result)).

Definition with_color_space (cs : J_COLOR_SPACE) (c : jpeg_fields)
  : jpeg_fields :=
  mkFields cs (output_width c) (output_height c) (output_components c)
           (rec_outbuf_height c) (output_scanline c) (priv c).

Definition color_space_of (grayscale : bool) : J_COLOR_SPACE :=
  if grayscale then JCS_GRAYSCALE else JCS_RGB.

(** The calls of the decoder up to the dimension check: the header and,
    if it is accepted, [jpeg_start_decompress] in the requested colour
    space. *)
Definition lib_start (f : option FILE) (buf : option (list byte))
    (buflen : Z) (grayscale : bool) : lib_result Z :=
  and_then (lib_header f buf buflen)
    (fun c m header_result =>
       if header_rejected header_result then Returned [] c m header_result
       else
         and_then
           (called L_start_decompress
              (verdict (jpeg_start_decompress
                          (with_color_space (color_space_of grayscale) c))
                       m))
           (fun c' m' _ => Returned [] c' m' header_result)).

(** The calls of the scanline loop, at most [fuel] of them; the result
    says whether [output_scanline] has reached [output_height]. *)
Fixpoint lib_scan (fuel : nat) (c : jpeg_fields) (m : string)
  : lib_result bool :=
  if output_scanline c <? output_height c then
    match fuel with
    | O => Returned [] c m false
    | S fuel' =>
        and_then
          (called L_read_scanlines
             (verdict (jpeg_read_scanlines (rec_outbuf_height c) c) m))
          (fun c' m' _ => lib_scan fuel' c' m')
    end
  else Returned [] c m true.

(** The check of line 224. *)
Definition dimension_mismatch (w h : Z) (c : jpeg_fields) : bool :=
  negb (w =? to_int32 (output_width c))
  || negb (h =? to_int32 (output_height c)).

(** The error the bridge captures for a message text. *)
Definition library_error (text : string) : GError :=
  mkGError OPENSLIDE_ERROR OPENSLIDE_ERROR_FAILED text.

Definition header_error : GError :=
  mkGError OPENSLIDE_ERROR OPENSLIDE_ERROR_FAILED "Couldn't read JPEG header".

Definition mismatch_error (w h width height : Z) : GError :=
  mkGError OPENSLIDE_ERROR OPENSLIDE_ERROR_FAILED
           (mismatch_message w h width height).

(** The error manager as [_openslide_jpeg_init_decompress] installs it,
    with a message text and a captured error. *)
Definition bridge (msg : string) (pending : option GError)
  : openslide_jpeg_error_mgr :=
  mkErrorMgr fn_my_error_exit fn_my_output_message fn_my_emit_message
             msg pending.

Definition installed (s : state) (msg : string) (pending : option GError)
  : Prop :=
  cinfo_err (cinfo s) = Some (bridge msg pending).

(** [s] with another session structure; [s] with more events. *)
Definition with_cinfo (s : state) (j : option openslide_jpeg_error_mgr)
    (c : jpeg_fields) : state :=
  mkState (mkCinfo j c) (caller_err s) (out_w s) (out_h s)
          (dest32 s) (dest8 s) (associated_images s) (trace s).

Definition logged (s : state) (t : list event) : state :=
  mkState (cinfo s) (caller_err s) (out_w s) (out_h s)
          (dest32 s) (dest8 s) (associated_images s) (trace s ++ t).

Definition with_caller_err (s : state) (e : error_slot) : state :=
  mkState (cinfo s) e (out_w s) (out_h s)
          (dest32 s) (dest8 s) (associated_images s) (trace s).

(** The state in which a session that began in [s] ends: the structure
    destroyed, the caller's slot and out-parameters as given. *)
Definition session_end (s : state) (t : list lib_entry) (c : jpeg_fields)
    (e : error_slot) (w h : option Z) : state :=
  mkState (mkCinfo None c) e w h
          (dest32 s) (dest8 s) (associated_images s)
          (trace s ++ EvSliceNew :: (EvJpeg <$> t)
                   ++ [EvJpeg L_destroy_decompress; EvSliceFree]).

(** A session that is still running. *)
Definition session_mid (s : state) (t : list lib_entry)
    (j : option openslide_jpeg_error_mgr) (c : jpeg_fields) : state :=
  mkState (mkCinfo j c) (caller_err s) (out_w s) (out_h s)
          (dest32 s) (dest8 s) (associated_images s)
          (trace s ++ EvSliceNew :: (EvJpeg <$> t)).

Definition with_dest (s : state) (m32 : gmap Z Z) (m8 : gmap Z byte)
  : state :=
  mkState (cinfo s) (caller_err s) (out_w s) (out_h s)
          m32 m8 (associated_images s) (trace s).

(** Rows that some call of [jpeg_read_scanlines] has returned. *)
Definition delivered (buffer : staging) : Prop :=
  exists max_lines c m c' m' rows_read,
    verdict (jpeg_read_scanlines max_lines c) m
    = Returns c' m' (rows_read, buffer).

(** The packing of three consecutive samples of a delivered row. *)
Definition packed_pixel (v : Z) : Prop :=
  exists buffer cur_buffer i,
    delivered buffer
    /\ v = pack_argb (buffer cur_buffer (i * 3 + 0))
                     (buffer cur_buffer (i * 3 + 1))
                     (buffer cur_buffer (i * 3 + 2)).

(** Every word of [m'] is as in [m] or is a packed pixel. *)
Definition pixels_only (m m' : gmap Z Z) : Prop :=
  forall k, m' !! k = m !! k
            \/ exists v, m' !! k = Some v /\ packed_pixel v.

(** A source the library decodes: the decoder's calls return up to the
    end of the image within [fuel] batches, and
    [jpeg_start_decompress] computes the output dimensions that
    [jpeg_calc_output_dimensions] computes. *)
Definition decodable (f : option FILE) (buf : option (list byte))
    (buflen : Z) (grayscale : bool) (fuel : nat) : Prop :=
  exists t c m header_result t' c' m',
    lib_start f buf buflen grayscale = Returned t c m header_result
    /\ header_rejected header_result = false
    /\ lib_scan fuel c m = Returned t' c' m' true
    /\ forall t1 c1 m1 r1,
         lib_probe f buf buflen = Returned t1 c1 m1 r1 ->
         output_width c = output_width c1
         /\ output_height c = output_height c1.

Definition with_images (s : state) (r : gmap string associated_image)
  : state :=
  mkState (cinfo s) (caller_err s) (out_w s) (out_h s)
          (dest32 s) (dest8 s) r (trace s).

(** [s] on entry to a function that declares [int32_t w, h]. *)
Definition declared (s : state) : state :=
  mkState (cinfo s) (caller_err s) None None
          (dest32 s) (dest8 s) (associated_images s) (trace s).

(** The state in which a call ends whose seek has failed. *)
Definition seek_failure (s : state) (path : string) (off : Z) : state :=
  mkState (cinfo s)
          (g_set_error (caller_err s) (io_error "Cannot seek to offset"))
          (out_w s) (out_h s) (dest32 s) (dest8 s) (associated_images s)
          (trace s ++ [EvFopen path; EvFseeko off;
                       EvIoError "Cannot seek to offset"; EvFclose]).

(** Events of a session and of closing the file: neither a seek nor an
    I/O error. *)
Definition session_event (e : event) : bool :=
  match e with
  | EvSliceNew | EvJpeg _ | EvSliceFree | EvFclose => true
  | EvFopen _ | EvFseeko _ | EvIoError _ => false
  end.

(** [fclose (f)] after a call that has returned. *)
Definition closing {A} (r : outcome A * state) : outcome A * state :=
  match r with
  | (Ok a, s) => (Ok a, logged s [EvFclose])
  | _ => r
  end.

(** Substring test on messages. *)
Definition mentions (msg part : string) : Prop :=
  exists pre post, msg = pre +:+ part +:+ post.

(** ** The library's contract for the scanline loop

    [delivers img W H comps]: on a structure of width [W], height [H] and
    [comps] components per pixel whose next line is [y < H],
    [jpeg_read_scanlines] returns at least one row and no more than
    remain, moves [output_scanline] past them, keeps the three other
    fields, and leaves line [y + j] of [img] in row [j] of the staging
    rows. *)
Definition delivers (img : Z -> Z -> byte) (W H comps : Z) : Prop :=
  forall c m,
    output_width c = W ->
    output_height c = H ->
    output_components c = comps ->
    0 <= output_scanline c < H ->
    exists c' m' rows_read buffer,
      verdict (jpeg_read_scanlines (rec_outbuf_height c) c) m
      = Returns c' m' (rows_read, buffer)
      /\ 1 <= rows_read
      /\ output_scanline c' = output_scanline c + rows_read
      /\ output_scanline c' <= H
      /\ output_width c' = W
      /\ output_height c' = H
      /\ output_components c' = comps
      /\ forall j col,
           0 <= j < rows_read -> buffer j col = img (output_scanline c + j) col.

(** [stalls H]: on a structure of height [H], [jpeg_read_scanlines]
    returns without a complaint and without moving [output_scanline]. *)
Definition stalls (H : Z) : Prop :=
  forall c m,
    output_height c = H ->
    exists c' m' batch,
      verdict (jpeg_read_scanlines (rec_outbuf_height c) c) m
      = Returns c' m' batch
      /\ output_scanline c' = output_scanline c
      /\ output_height c' = H.

(** What follows the scanline loop in [jpeg_decode]: [result = true] and
    the teardown, or the handler of the [setjmp] and the teardown. *)
Definition after_scan (r : outcome unit * state) : outcome bool * state :=
  match r with
  | (Ok _, s) =>
      bind _openslide_jpeg_destroy_decompress (fun _ => ret true) s
  | (Jump, s) =>
      bind _openslide_jpeg_propagate_error
           (fun _ => bind _openslide_jpeg_destroy_decompress
                          (fun _ => ret false)) s
  | (Stuck why, s) => (Stuck why, s)
  end.

(** The entry points a sequence of calls has reached. *)
Definition entries_of {A} (r : lib_result A) : list lib_entry :=
  match r with
  | Returned t _ _ _ => t
  | Raised t _ _ => t
  end.

(** Events other than opening and closing the file. *)
Definition inner_event (e : event) : bool :=
  match e with
  | EvFopen _ | EvFclose => false
  | _ => true
  end.

End Decoder.

Arguments jpeg_fields : clear implicits.
Arguments jpeg_decompress_struct : clear implicits.
Arguments libcall : clear implicits.
Arguments lib_result : clear implicits.
Arguments LibJpeg : clear implicits.
Arguments state : clear implicits.
Arguments M : clear implicits.
Arguments LibReturn {lib_private A} c a.
Arguments LibEmit {lib_private A} c msg_level text k.
Arguments LibErrorExit {lib_private A} c text.
Arguments lib_verdict : clear implicits.
Arguments Returns {lib_private A} c msg a.
Arguments Raises {lib_private A} c text.
Arguments Returned {lib_private A} t c msg a.
Arguments Raised {lib_private A} t c text.

(** ** A scripted library, for concrete runs

    A source that decodes to a solid red image; the script says what the
    header read returns, which dimensions are reported, and at which entry
    point the library warns or gives up. *)

Module Toy.

Record script := mkScript {
  header : Z;
  width : Z;
  height : Z;
  warn_at : option lib_entry;
  warn_level : Z;
  fail_at : option lib_entry
}.

Definition entry_eqb (a b : lib_entry) : bool :=
  match a, b with
  | L_create_decompress, L_create_decompress
  | L_stdio_src, L_stdio_src
  | L_mem_src, L_mem_src
  | L_read_header, L_read_header
  | L_calc_output_dimensions, L_calc_output_dimensions
  | L_start_decompress, L_start_decompress
  | L_read_scanlines, L_read_scanlines
  | L_destroy_decompress, L_destroy_decompress => true
  | _, _ => false
  end.

Definition at_entry (o : option lib_entry) (e : lib_entry) : bool :=
  match o with
  | Some e' => entry_eqb e' e
  | None => false
  end.

Definition respond {A} (sc : script) (e : lib_entry)
    (c : jpeg_fields unit) (a : A) : libcall unit A :=
  if at_entry (fail_at sc) e then LibErrorExit c "Bogus marker length"
  else if at_entry (warn_at sc) e then
    LibEmit c (warn_level sc) "Premature end of JPEG file" (LibReturn c a)
  else LibReturn c a.

Definition with_dims (sc : script) (c : jpeg_fields unit)
  : jpeg_fields unit :=
  mkFields (out_color_space c) (width sc) (height sc)
           (output_components c) (rec_outbuf_height c)
           (output_scanline c) tt.

Definition started (sc : script) (c : jpeg_fields unit)
  : jpeg_fields unit :=
  mkFields (out_color_space c) (width sc) (height sc)
           (match out_color_space c with
            | JCS_GRAYSCALE => 1
            | _ => 3
            end)
           1 0 tt.

Definition next_line (c : jpeg_fields unit) : jpeg_fields unit :=
  mkFields (out_color_space c) (output_width c)
           (output_height c) (output_components c)
           (rec_outbuf_height c) (output_scanline c + 1) tt.

(** One row of solid red: luma 76 in grayscale, (255, 0, 0) in RGB. *)
Definition red_rows (c : jpeg_fields unit) : staging :=
  fun _ col =>
    if output_components c =? 1 then "L"%byte
    else if col mod 3 =? 0 then xff else x00.

Definition lib (sc : script) : LibJpeg unit := {|
  priv0 := tt;
  jpeg_create_decompress c := respond sc L_create_decompress c tt;
  _openslide_jpeg_stdio_src _ c := respond sc L_stdio_src c tt;
  _openslide_jpeg_mem_src _ _ c := respond sc L_mem_src c tt;
  jpeg_read_header c := respond sc L_read_header c (header sc);
  jpeg_calc_output_dimensions c :=
    respond sc L_calc_output_dimensions (with_dims sc c) tt;
  jpeg_start_decompress c :=
    respond sc L_start_decompress (started sc c) tt;
  jpeg_read_scanlines _ c :=
    respond sc L_read_scanlines (next_line c) (1, red_rows c)
|}.

(** A file system with one unreadable path, in which seeking to a
    negative offset fails. *)
Definition fs : FileSys := {|
  _openslide_fopen path :=
    if String.eqb path "missing.tif" then
      inr (mkGError G_FILE_ERROR 4 "Couldn't open missing.tif")
    else inl (mkFILE path 0);
  fseeko_fails _ off := off <? 0;
  io_error msg := mkGError G_FILE_ERROR 22 (msg +:+ ": Invalid argument")
|}.

Definition good (w h : Z) : script := mkScript 1 w h None 0 None.

(** States in the middle of a session: the bridge installed and empty,
    and the bridge holding a captured error. *)
Definition s_begun : state unit :=
  mkState (mkCinfo (Some (bridge "" None))
                   (mkFields JCS_UNKNOWN 0 0 0 0 0 tt))
          (Some None) None None ∅ ∅ ∅ [EvSliceNew].

Definition s_caught : state unit :=
  mkState (mkCinfo (Some (bridge "Bogus marker length"
                            (Some (library_error "Bogus marker length"))))
                   (mkFields JCS_UNKNOWN 0 0 0 0 0 tt))
          (Some None) None None ∅ ∅ ∅ [EvSliceNew].

Definition s0 : state unit :=
  mkState (mkCinfo None (mkFields JCS_UNKNOWN 0 0 0 0 0 tt))
          (Some None) None None ∅ ∅ ∅ [].

(** The image of the scripted library: solid red, and its luma. *)
Definition red : Z -> Z -> byte :=
  fun _ col => if col mod 3 =? 0 then xff else x00.

Definition red_luma : Z -> Z -> byte := fun _ _ => "L"%byte.

(** The same library with a source that is suspended for good:
    [jpeg_read_scanlines] returns no row. *)
Definition lib_stalled (sc : script) : LibJpeg unit := {|
  priv0 := tt;
  jpeg_create_decompress c := respond sc L_create_decompress c tt;
  _openslide_jpeg_stdio_src _ c := respond sc L_stdio_src c tt;
  _openslide_jpeg_mem_src _ _ c := respond sc L_mem_src c tt;
  jpeg_read_header c := respond sc L_read_header c (header sc);
  jpeg_calc_output_dimensions c :=
    respond sc L_calc_output_dimensions (with_dims sc c) tt;
  jpeg_start_decompress c :=
    respond sc L_start_decompress (started sc c) tt;
  jpeg_read_scanlines _ c := LibReturn c (0, red_rows c)
|}.

End Toy.

(** * Properties *)

Section DecoderFacts.

Context {lib_private : Type} {lib : LibJpeg lib_private} {fs : FileSys}.

Implicit Types (s : state lib_private) (c : jpeg_fields lib_private).

(** ** The error bridge *)

Lemma run_libcall_verdict {A} (call : libcall lib_private A) :
  forall s msg,
    installed s msg None ->
    run_libcall call s =
      match verdict call msg with
      | Returns c m a => (Ok a, with_cinfo s (Some (bridge m None)) c)
      | Raises c text =>
          (Jump,
           with_cinfo s (Some (bridge text (Some (library_error text)))) c)
      end.
Proof.
  induction call as [c a | c lvl text k IH | c text]; intros s msg Hs;
    destruct s as [[j c0] ce w h d32 d8 im t];
    unfold installed in Hs; simpl in Hs; subst j.
  - reflexivity.
  - cbn. unfold my_emit_message. destruct (lvl <? 0) eqn:Hl.
    + reflexivity.
    + cbn. rewrite (IH _ text) by reflexivity.
      by destruct (verdict k text).
  - reflexivity.
Qed.

Lemma call_lib_verdict {A} (e : lib_entry)
    (f : jpeg_fields lib_private -> libcall lib_private A) s msg :
  installed s msg None ->
  call_lib e f s =
    match verdict (f (fields (cinfo s))) msg with
    | Returns c m a =>
        (Ok a, with_cinfo (logged s [EvJpeg e]) (Some (bridge m None)) c)
    | Raises c text =>
        (Jump,
         with_cinfo (logged s [EvJpeg e])
                    (Some (bridge text (Some (library_error text)))) c)
    end.
Proof.
  intros Hs. unfold call_lib, bind, log, modify, get_fields, get, ret.
  cbn. rewrite (run_libcall_verdict _ _ msg).
  - by destruct (verdict _ msg).
  - exact Hs.
Qed.

(** C5: with the bridge installed, a message of negative level takes the
    path of a fatal error: [my_emit_message] is [my_error_exit], which
    captures the message text (unless an error is already held) and
    jumps; a library call that warns ends exactly as if it had called
    [error_exit] at that point, without running the rest of the call.
    A message of level 0 or more changes nothing and the call goes on. *)
Theorem warning_escalated_to_fatal {A} s msg pending (msg_level : Z)
    c text (k : libcall lib_private A) :
  installed s msg pending ->
  my_emit_message msg_level s
    = (if msg_level <? 0 then my_error_exit s else (Ok tt, s))
  /\ my_error_exit s
    = (Jump,
       with_cinfo s
         (Some (bridge msg (g_set_error_at pending (library_error msg))))
         (fields (cinfo s)))
  /\ run_libcall (LibEmit c msg_level text k) s
    = (if msg_level <? 0 then run_libcall (LibErrorExit c text) s
       else run_libcall k (with_cinfo s (Some (bridge text pending)) c))
  /\ run_libcall (LibErrorExit (A:=A) c text) s
    = (Jump,
       with_cinfo s
         (Some (bridge text (g_set_error_at pending (library_error text))))
         c).
Proof.
  destruct s as [[j c0] ce w h d32 d8 im t].
  unfold installed; simpl; intros ->.
  repeat split.
  - unfold my_emit_message. by destruct (msg_level <? 0).
  - cbn. unfold my_emit_message. by destruct (msg_level <? 0).
Qed.

(** C6: the bridge has room for one error: capturing a message while one
    is held keeps the one held.  [_openslide_jpeg_propagate_error] stops
    on its assertion unless [error_exit] is [my_error_exit]; otherwise it
    hands the held error to the caller's slot and leaves the bridge
    empty, so that propagating again moves nothing. *)
Theorem propagate_error_once s jerr :
  cinfo_err (cinfo s) = Some jerr ->
  my_output_message s
    = (Ok tt,
       with_cinfo s
         (Some (mkErrorMgr (error_exit jerr) (output_message jerr)
                  (emit_message jerr) (msg_text jerr)
                  (match err jerr with
                   | Some held => Some held
                   | None => Some (library_error (msg_text jerr))
                   end)))
         (fields (cinfo s)))
  /\ (if is_my_error_exit (error_exit jerr) then
        exists s1,
          _openslide_jpeg_propagate_error s = (Ok tt, s1)
          /\ caller_err s1 = g_propagate_error (caller_err s) (err jerr)
          /\ (err <$> cinfo_err (cinfo s1)) = Some None
          /\ _openslide_jpeg_propagate_error s1 = (Ok tt, s1)
      else
        _openslide_jpeg_propagate_error s = (Stuck AssertionFailed, s)).
Proof.
  destruct s as [[j c0] ce w h d32 d8 im t]; simpl; intros ->.
  split.
  - cbn. by destruct (err jerr).
  - destruct jerr as [[] om em mt pe]; cbn.
    + eexists; repeat split.
    + reflexivity.
Qed.

(** ** The dimension probe *)

(** Symbolic execution: [exec] runs the monad's plumbing, [lib_call]
    steps over the next library call by cases on its verdict. *)
Ltac exec :=
  cbv beta iota zeta delta
    [bind setjmp ret longjmp stuck get modify log set_cinfo set_fields
     set_jerr set_caller_err set_out_dims set_dest32 set_dest8
     set_associated_images declare_out_dims get_jerr get_fields set_error
     g_assert is_my_error_exit bridge with_cinfo logged with_dest
     jpeg_std_error
     _openslide_jpeg_create_decompress _openslide_jpeg_init_decompress
     _openslide_jpeg_propagate_error _openslide_jpeg_destroy_decompress
     set_out_color_space and_then called prepend with_color_space
     color_space_of
     cinfo caller_err out_w out_h dest32 dest8 associated_images trace
     cinfo_err fields error_exit output_message emit_message msg_text err].

Ltac lib_call :=
  erewrite call_lib_verdict by reflexivity; exec;
  match goal with
  | |- context [verdict ?call ?m] => destruct (verdict call m)
  end; exec.

Ltac header_cases :=
  match goal with
  | |- context [header_rejected ?r] =>
      destruct (header_rejected r) eqn:Hr; exec; rewrite ?Hr
  end.

Ltac same_trace :=
  try match goal with H : header_rejected _ = _ |- _ => rewrite ?H end;
  unfold session_end; cbn [fmap list_fmap app];
  rewrite <- ?app_assoc; cbn [app]; reflexivity.

(** The probe as a function of what the library does. *)
Lemma jpeg_get_dimensions_eq f buf buflen s :
  jpeg_get_dimensions f buf buflen s =
    match lib_probe f buf buflen with
    | Raised t c text =>
        (Ok false,
         session_end s t c
           (g_propagate_error (caller_err s) (Some (library_error text)))
           (out_w s) (out_h s))
    | Returned t c m header_result =>
        if header_rejected header_result then
          (Ok false,
           session_end s t c (g_set_error (caller_err s) header_error)
                       (out_w s) (out_h s))
        else
          (Ok true,
           session_end s t c (caller_err s)
                       (Some (to_int32 (output_width c)))
                       (Some (to_int32 (output_height c))))
    end.
Proof.
  destruct s as [ci ce w h d32 d8 im t].
  unfold jpeg_get_dimensions, lib_probe, lib_header, lib_source,
    source_entry.
  destruct f as [f'|]; exec.
  all: lib_call; [lib_call; [lib_call|] |].
  all: try header_cases.
  all: try lib_call.
  all: same_trace.
Qed.

(** ** Pixels *)

Lemma sample_shift16 (b : byte) : Z.shiftr (Z.shiftl (sample b) 16) 24 = 0.
Proof. destruct b; reflexivity. Qed.

Lemma sample_shift8 (b : byte) : Z.shiftr (Z.shiftl (sample b) 8) 24 = 0.
Proof. destruct b; reflexivity. Qed.

Lemma sample_shift0 (b : byte) : Z.shiftr (sample b) 24 = 0.
Proof. destruct b; reflexivity. Qed.

Lemma pack_argb_alpha r g b : Z.shiftr (pack_argb r g b) 24 = 0xFF.
Proof.
  unfold pack_argb.
  rewrite !Z.shiftr_lor, sample_shift16, sample_shift8, sample_shift0.
  reflexivity.
Qed.

Lemma copy_rgb_lookup n : forall i row d32 (m : gmap Z Z) k,
  copy_rgb n i row d32 m !! k =
    if decide (d32 + i <= k < d32 + i + Z.of_nat n) then
      Some (pack_argb (row ((k - d32) * 3 + 0)) (row ((k - d32) * 3 + 1))
                      (row ((k - d32) * 3 + 2)))
    else m !! k.
Proof.
  induction n as [|n IH]; intros i row d32 m k; cbn [copy_rgb].
  - case_decide; [lia | done].
  - rewrite IH. repeat case_decide; try lia; try done.
    + assert (k = d32 + i) as -> by lia.
      rewrite lookup_insert_eq. do 4 f_equal; lia.
    + rewrite lookup_insert_ne by lia. done.
Qed.

Lemma copy_gray_lookup n : forall i row d8 (m : gmap Z byte) k,
  copy_gray n i row d8 m !! k =
    if decide (d8 + i <= k < d8 + i + Z.of_nat n) then Some (row (k - d8))
    else m !! k.
Proof.
  induction n as [|n IH]; intros i row d8 m k; cbn [copy_gray].
  - case_decide; [lia | done].
  - rewrite IH. repeat case_decide; try lia; try done.
    + assert (k = d8 + i) as -> by lia.
      rewrite lookup_insert_eq. do 2 f_equal; lia.
    + rewrite lookup_insert_ne by lia. done.
Qed.

Lemma pixels_only_refl (m : gmap Z Z) : pixels_only m m.
Proof. intros k. by left. Qed.

Lemma pixels_only_trans (m1 m2 m3 : gmap Z Z) :
  pixels_only m1 m2 -> pixels_only m2 m3 -> pixels_only m1 m3.
Proof.
  intros H12 H23 k. destruct (H23 k) as [->|Hv]; [apply H12 | by right].
Qed.

Lemma copy_rgb_pixels n buffer cur_buffer d32 (m : gmap Z Z) :
  delivered buffer ->
  pixels_only m (copy_rgb n 0 (buffer cur_buffer) d32 m).
Proof.
  intros Hd k. rewrite copy_rgb_lookup. case_decide; [right | by left].
  eexists; split; [reflexivity|]. by exists buffer, cur_buffer, (k - d32).
Qed.

(** The rows of a batch: no failure, and only the destination changes. *)
Lemma copy_rows_spec rows_read : forall cur_buffer buffer d32 d8 s,
  delivered buffer ->
  exists cursors m32 m8,
    copy_rows rows_read cur_buffer buffer d32 d8 s
    = (Ok cursors, with_dest s m32 m8)
    /\ pixels_only (dest32 s) m32.
Proof.
  induction rows_read as [|n IH]; intros cur buffer d32 d8 s Hd.
  - exists (d32, d8), (dest32 s), (dest8 s). split.
    + by destruct s.
    + apply pixels_only_refl.
  - destruct s as [ci ce w h m32 m8 im t].
    cbn [copy_rows]. exec.
    destruct (output_components _ =? 1).
    + edestruct IH as (cursors & m32' & m8' & -> & Hp); [exact Hd|].
      exists cursors, m32', m8'. split; [reflexivity | exact Hp].
    + edestruct IH as (cursors & m32' & m8' & -> & Hp); [exact Hd|].
      exists cursors, m32', m8'. split; [reflexivity |].
      eapply pixels_only_trans; [|exact Hp].
      by apply copy_rgb_pixels.
Qed.

(** The scanline loop against the library's side of it. *)
Lemma decompress_spec fuel : forall d32 d8 s m,
  installed s m None ->
  exists m32 m8,
    pixels_only (dest32 s) m32
    /\ decompress fuel d32 d8 s =
        match lib_scan fuel (fields (cinfo s)) m with
        | Returned t c' m' complete =>
            (if complete then Ok tt else Stuck OutOfFuel,
             with_dest (with_cinfo (logged s (EvJpeg <$> t))
                                   (Some (bridge m' None)) c')
                       m32 m8)
        | Raised t c' text =>
            (Jump,
             with_dest (with_cinfo (logged s (EvJpeg <$> t))
                          (Some (bridge text (Some (library_error text))))
                          c')
                       m32 m8)
        end.
Proof.
  induction fuel as [|fuel IH]; intros d32 d8 s m Hs;
    destruct s as [[j c0] ce w h m32 m8 im t];
    unfold installed in Hs; simpl in Hs; subst j;
    cbn [decompress lib_scan]; exec;
    destruct (output_scanline c0 <? output_height c0).
  - exists m32, m8. split; [apply pixels_only_refl|].
    cbn [fmap list_fmap]. by rewrite app_nil_r.
  - exists m32, m8. split; [apply pixels_only_refl|].
    cbn [fmap list_fmap]. by rewrite app_nil_r.
  - erewrite call_lib_verdict by reflexivity. exec.
    destruct (verdict _ m) as [c' m' [rows_read buffer]|c' text] eqn:Ev;
      exec.
    + edestruct (copy_rows_spec (Z.to_nat rows_read) 0 buffer d32 d8)
        as ([d32' d8'] & m32' & m8' & -> & Hp);
        [by exists (rec_outbuf_height c0), c0, m, c', m', rows_read|].
      exec. cbn [dest32] in Hp.
      edestruct (IH d32' d8') as (m32'' & m8'' & Hp' & ->);
        [reflexivity|]. exec. cbn [dest32] in Hp'.
      exists m32'', m8''. split; [by eapply pixels_only_trans|].
      destruct (lib_scan fuel c' m'); exec;
        cbn [fmap list_fmap app]; by rewrite <- !app_assoc.
    + exists m32, m8. split; [apply pixels_only_refl|].
      cbn [fmap list_fmap app]. reflexivity.
  - exists m32, m8. split; [apply pixels_only_refl|].
    cbn [fmap list_fmap]. by rewrite app_nil_r.
Qed.

(** The decoder as a function of what the library does; only the pixels
    it stores are left open. *)
Lemma jpeg_decode_spec fuel f buf buflen grayscale w h s :
  exists m32 m8,
    pixels_only (dest32 s) m32
    /\ jpeg_decode fuel f buf buflen grayscale w h s =
        match lib_start f buf buflen grayscale with
        | Raised t c text =>
            (Ok false,
             session_end s t c
               (g_propagate_error (caller_err s)
                                  (Some (library_error text)))
               (out_w s) (out_h s))
        | Returned t c m header_result =>
            if header_rejected header_result then
              (Ok false,
               session_end s t c (g_set_error (caller_err s) header_error)
                           (out_w s) (out_h s))
            else if dimension_mismatch w h c then
              (Ok false,
               session_end s t c
                 (g_set_error (caller_err s)
                    (mismatch_error w h (to_int32 (output_width c))
                                    (to_int32 (output_height c))))
                 (out_w s) (out_h s))
            else
              match lib_scan fuel c m with
              | Returned t' c' m' true =>
                  (Ok true,
                   with_dest (session_end s (t ++ t') c' (caller_err s)
                                          (out_w s) (out_h s))
                             m32 m8)
              | Returned t' c' m' false =>
                  (Stuck OutOfFuel,
                   with_dest (session_mid s (t ++ t')
                                          (Some (bridge m' None)) c')
                             m32 m8)
              | Raised t' c' text =>
                  (Ok false,
                   with_dest
                     (session_end s (t ++ t') c'
                        (g_propagate_error (caller_err s)
                                           (Some (library_error text)))
                        (out_w s) (out_h s))
                     m32 m8)
              end
        end.
Proof.
  destruct s as [ci ce ow oh d32 d8 im t].
  unfold jpeg_decode, lib_start, lib_header, lib_source, source_entry,
    dimension_mismatch.
  destruct f as [f'|]; exec.
  all: lib_call; [lib_call; [lib_call|] |].
  all: try header_cases.
  all: try lib_call.
  all: try match goal with
           | |- context [negb (?x =? ?a) || negb (?y =? ?b)] =>
               destruct (negb (x =? a) || negb (y =? b)) eqn:Hm; exec
           end.
  all: try match goal with
           | |- context [decompress ?n 0 0 ?s0] =>
               edestruct (decompress_spec n 0 0 s0)
                 as (m32 & m8 & Hp & ->); [reflexivity|]; exec;
               match goal with
               | |- context [lib_scan n ?c ?m] =>
                   destruct (lib_scan n c m) as [? ? ? []|]
               end; exec; exists m32, m8; (split; [exact Hp|])
           end.
  all: try (exists d32, d8; split; [apply pixels_only_refl|]).
  all: same_trace.
Qed.

(** ** The pixel decoder *)

(** C1: whatever the library does, each word of the 32-bit destination
    is, after [jpeg_decode], either as it was or
    [0xFF000000 | R << 16 | G << 8 | B] for three consecutive samples
    R, G, B of a row the library delivered, and then its top byte is
    0xFF; the loop of lines 258-263 stores at [d32 + i] the packing of
    samples [3i], [3i+1], [3i+2], for each [i] below the row width. *)
Theorem decoded_pixels_opaque_argb fuel f buf buflen grayscale w h s :
  (forall k,
     dest32 (jpeg_decode fuel f buf buflen grayscale w h s).2 !! k
     = dest32 s !! k
     \/ exists buffer cur_buffer i v,
          delivered buffer
          /\ dest32 (jpeg_decode fuel f buf buflen grayscale w h s).2 !! k
             = Some v
          /\ v = Z.lor (Z.lor (Z.lor 0xFF000000
                   (Z.shiftl (sample (buffer cur_buffer (i * 3 + 0))) 16))
                   (Z.shiftl (sample (buffer cur_buffer (i * 3 + 1))) 8))
                   (sample (buffer cur_buffer (i * 3 + 2)))
          /\ Z.shiftr v 24 = 0xFF)
  /\ (forall n row d32 (m : gmap Z Z) k,
        copy_rgb n 0 row d32 m !! k
        = if decide (d32 <= k < d32 + Z.of_nat n) then
            Some (Z.lor (Z.lor (Z.lor 0xFF000000
                    (Z.shiftl (sample (row ((k - d32) * 3 + 0))) 16))
                    (Z.shiftl (sample (row ((k - d32) * 3 + 1))) 8))
                    (sample (row ((k - d32) * 3 + 2))))
          else m !! k).
Proof.
  split.
  - intros k.
    destruct (jpeg_decode_spec fuel f buf buflen grayscale w h s)
      as (m32 & m8 & Hp & ->).
    assert (dest32 s !! k = dest32 s !! k
            \/ exists buffer cur_buffer i v,
                 delivered buffer /\ dest32 s !! k = Some v
                 /\ v = pack_argb (buffer cur_buffer (i * 3 + 0))
                                  (buffer cur_buffer (i * 3 + 1))
                                  (buffer cur_buffer (i * 3 + 2))
                 /\ Z.shiftr v 24 = 0xFF) as Hsame by (by left).
    assert (m32 !! k = dest32 s !! k
            \/ exists buffer cur_buffer i v,
                 delivered buffer /\ m32 !! k = Some v
                 /\ v = pack_argb (buffer cur_buffer (i * 3 + 0))
                                  (buffer cur_buffer (i * 3 + 1))
                                  (buffer cur_buffer (i * 3 + 2))
                 /\ Z.shiftr v 24 = 0xFF) as Hnew.
    { destruct (Hp k) as [Hk | (v & Hv & buffer & cur & i & Hd & ->)];
        [by left | right].
      exists buffer, cur, i. eexists. repeat split; try done.
      apply pack_argb_alpha. }
    destruct (lib_start f buf buflen grayscale) as [t c m r | t c text];
      [destruct (header_rejected r);
       [| destruct (dimension_mismatch w h c);
          [| destruct (lib_scan fuel c m) as [? ? ? [] |]]] |];
      cbn [snd session_end with_dest session_mid dest32];
      first [exact Hsame | exact Hnew].
  - intros n row d32 m k. rewrite copy_rgb_lookup.
    repeat case_decide; try lia; reflexivity.
Qed.

Lemma append_cons x (a b : string) : String x a +:+ b = String x (a +:+ b).
Proof. reflexivity. Qed.

Lemma append_assoc (a b c : string) : (a +:+ b) +:+ c = a +:+ b +:+ c.
Proof. induction a as [|x a IH]; [done|]. by rewrite !append_cons, IH. Qed.

Lemma append_empty (a : string) : a +:+ "" = a.
Proof. induction a as [|x a IH]; [done|]. by rewrite append_cons, IH. Qed.

Lemma to_int32_small z : - 2 ^ 31 <= z < 2 ^ 31 -> to_int32 z = z.
Proof.
  intros Hz. unfold to_int32.
  rewrite Z.mod_small by lia. lia.
Qed.

(** C2: if the decoder's calls return up to [jpeg_start_decompress] and
    the output dimensions then in the structure are not the expected
    ones, [jpeg_decode] returns false, sets the error "Dimensional
    mismatch reading JPEG, expected WxH, got W'xH'" in the caller's slot,
    and leaves both views of the destination as they were. *)
Theorem dimension_mismatch_fails
    fuel f buf buflen grayscale w h s t c m header_result :
  lib_start f buf buflen grayscale = Returned t c m header_result ->
  header_rejected header_result = false ->
  w <> to_int32 (output_width c) \/ h <> to_int32 (output_height c) ->
  let width := to_int32 (output_width c) in
  let height := to_int32 (output_height c) in
  exists s',
    jpeg_decode fuel f buf buflen grayscale w h s = (Ok false, s')
    /\ caller_err s'
       = g_set_error (caller_err s) (mismatch_error w h width height)
    /\ mentions (message (mismatch_error w h width height))
                (fmt_d w +:+ "x" +:+ fmt_d h)
    /\ mentions (message (mismatch_error w h width height))
                (fmt_d width +:+ "x" +:+ fmt_d height)
    /\ dest32 s' = dest32 s
    /\ dest8 s' = dest8 s.
Proof.
  intros Hstart Hr Hne width height.
  destruct (jpeg_decode_spec fuel f buf buflen grayscale w h s)
    as (m32 & m8 & _ & ->).
  rewrite Hstart, Hr.
  assert (dimension_mismatch w h c = true) as ->.
  { unfold dimension_mismatch.
    destruct (Z.eqb_spec w (to_int32 (output_width c)));
      destruct (Z.eqb_spec h (to_int32 (output_height c)));
      cbn; try done. lia. }
  eexists. split; [reflexivity|].
  repeat split.
  - exists "Dimensional mismatch reading JPEG, expected ",
      (", got " +:+ fmt_d width +:+ "x" +:+ fmt_d height).
    cbn [message mismatch_error]. unfold mismatch_message.
    by rewrite !append_assoc.
  - exists ("Dimensional mismatch reading JPEG, expected " +:+ fmt_d w
              +:+ "x" +:+ fmt_d h +:+ ", got "), "".
    cbn [message mismatch_error]. unfold mismatch_message.
    by rewrite !append_assoc, append_empty.
Qed.

(** A scan that is complete stays so with more fuel. *)
Lemma lib_scan_more_fuel fuel : forall fuel' c m t c' m',
  lib_scan fuel c m = Returned t c' m' true ->
  (fuel <= fuel')%nat ->
  lib_scan fuel' c m = Returned t c' m' true.
Proof.
  induction fuel as [|fuel IH]; intros fuel' c m t c' m' Hscan Hle.
  - cbn [lib_scan] in Hscan.
    destruct (output_scanline c <? output_height c) eqn:Hlt; [discriminate|].
    destruct fuel'; cbn [lib_scan]; by rewrite Hlt.
  - destruct fuel' as [|fuel']; [lia|].
    cbn [lib_scan] in *.
    destruct (output_scanline c <? output_height c); [|exact Hscan].
    destruct (verdict _ m) as [c1 m1 batch | c1 text];
      cbn [called and_then prepend] in *; [|discriminate].
    destruct (lib_scan fuel c1 m1) as [t1 c2 m2 [] | t1 c2 text] eqn:Hin;
      cbn [prepend] in Hscan; try discriminate.
    rewrite (IH fuel' _ _ _ _ _ Hin) by lia. exact Hscan.
Qed.

(** C3: if the probe succeeds on a source with (w, h) and the library
    decodes that source within [fuel] batches, computing in
    [jpeg_start_decompress] the dimensions it computes in
    [jpeg_calc_output_dimensions], then [jpeg_decode] with expected
    dimensions (w, h) returns true, for that bound on the batches and for
    every larger one. *)
Theorem probe_then_decode_succeeds
    fuel fuel' f buf buflen grayscale s s1 w h s2 :
  jpeg_get_dimensions f buf buflen s = (Ok true, s1) ->
  out_w s1 = Some w ->
  out_h s1 = Some h ->
  decodable f buf buflen grayscale fuel ->
  (fuel <= fuel')%nat ->
  exists s3,
    jpeg_decode fuel' f buf buflen grayscale w h s2 = (Ok true, s3).
Proof.
  intros Hprobe Hw Hh (t & c & m & r & t' & c' & m' & Hst & Hr & Hsc & Hd)
    Hle.
  rewrite jpeg_get_dimensions_eq in Hprobe.
  destruct (lib_probe f buf buflen) as [t1 c1 m1 r1 | t1 c1 text] eqn:Hp;
    [| discriminate].
  destruct (header_rejected r1); [discriminate|].
  injection Hprobe as <-. cbn [out_w out_h session_end] in Hw, Hh.
  injection Hw as <-. injection Hh as <-.
  destruct (Hd _ _ _ _ eq_refl) as [Hwd Hht].
  destruct (jpeg_decode_spec fuel' f buf buflen grayscale
              (to_int32 (output_width c1)) (to_int32 (output_height c1)) s2)
    as (m32 & m8 & _ & ->).
  rewrite Hst, Hr.
  unfold dimension_mismatch. rewrite Hwd, Hht, !Z.eqb_refl. cbn.
  rewrite (lib_scan_more_fuel _ _ _ _ _ _ _ Hsc Hle). eexists; reflexivity.
Qed.

(** ** Header outcomes, teardown and the probe's results *)

Lemma header_rejected_iff header_result :
  header_rejected header_result = false
  <-> header_result = JPEG_HEADER_OK
      \/ header_result = JPEG_HEADER_TABLES_ONLY.
Proof.
  unfold header_rejected.
  destruct (Z.eqb_spec header_result JPEG_HEADER_OK);
    destruct (Z.eqb_spec header_result JPEG_HEADER_TABLES_ONLY);
    cbn; intuition congruence.
Qed.

(** C4: when [jpeg_read_header] returns, the probe and the decoder go on
    exactly if it returned [JPEG_HEADER_OK] or [JPEG_HEADER_TABLES_ONLY].
    For any other value both return false with the error "Couldn't read
    JPEG header", having made no library call after the header read
    except the destruction of the session, and having written neither
    the dimensions nor the destination.  For the two accepted values the
    next library call is made. *)
Theorem header_outcomes f buf buflen t c m header_result
    fuel grayscale w h s :
  lib_header f buf buflen = Returned t c m header_result ->
  t = [L_create_decompress; source_entry f; L_read_header]
  /\ (header_rejected header_result = false
      <-> header_result = JPEG_HEADER_OK
          \/ header_result = JPEG_HEADER_TABLES_ONLY)
  /\ if header_rejected header_result then
       message header_error = "Couldn't read JPEG header"
       /\ jpeg_get_dimensions f buf buflen s
          = (Ok false,
             session_end s t c (g_set_error (caller_err s) header_error)
                         (out_w s) (out_h s))
       /\ jpeg_decode fuel f buf buflen grayscale w h s
          = (Ok false,
             session_end s t c (g_set_error (caller_err s) header_error)
                         (out_w s) (out_h s))
     else
       (exists o s' rest,
          jpeg_get_dimensions f buf buflen s = (o, s')
          /\ trace s'
             = trace s ++ EvSliceNew
                 :: (EvJpeg <$> t ++ [L_calc_output_dimensions]) ++ rest)
       /\ (exists o s' rest,
            jpeg_decode fuel f buf buflen grayscale w h s = (o, s')
            /\ trace s'
               = trace s ++ EvSliceNew
                   :: (EvJpeg <$> t ++ [L_start_decompress]) ++ rest).
Proof.
  intros Hh. split; [|split; [apply header_rejected_iff|]].
  - unfold lib_header in Hh.
    destruct (verdict (jpeg_create_decompress zero_fields) "");
      [|discriminate]; cbn [called and_then] in Hh.
    destruct (verdict (lib_source f buf buflen c0) msg);
      [|discriminate]; cbn [called and_then prepend] in Hh.
    destruct (verdict (jpeg_read_header c1) msg0);
      [|discriminate]; cbn [called prepend] in Hh.
    by injection Hh as <- _ _ _.
  - destruct (jpeg_decode_spec fuel f buf buflen grayscale w h s)
      as (m32 & m8 & _ & Hdec).
    rewrite jpeg_get_dimensions_eq. rewrite Hdec.
    unfold lib_probe, lib_start. rewrite Hh. cbn [and_then].
    destruct (header_rejected header_result) eqn:Hr.
    + cbn [prepend]. rewrite Hr, app_nil_r. done.
    + split.
      * destruct (verdict (jpeg_calc_output_dimensions c) m);
          cbn [called and_then prepend]; rewrite ?Hr, ?app_nil_r.
        -- do 2 eexists.
           exists [EvJpeg L_destroy_decompress; EvSliceFree].
           split; [reflexivity|]. by cbn [session_end trace].
        -- do 2 eexists.
           exists [EvJpeg L_destroy_decompress; EvSliceFree].
           split; [reflexivity|]. by cbn [session_end trace].
      * destruct (verdict (jpeg_start_decompress _) m);
          cbn [called and_then prepend]; rewrite ?Hr, ?app_nil_r.
        -- destruct (dimension_mismatch w h c0).
           ++ do 2 eexists.
              exists [EvJpeg L_destroy_decompress; EvSliceFree].
              split; [reflexivity|]. by cbn [session_end trace].
           ++ destruct (lib_scan fuel c0 msg) as [t' ? ? [] | t' ? ?].
              ** do 2 eexists.
                 exists ((EvJpeg <$> t')
                           ++ [EvJpeg L_destroy_decompress; EvSliceFree]).
                 split; [reflexivity|].
                 cbn [session_end with_dest trace].
                 by rewrite !fmap_app, <- !app_assoc.
              ** do 2 eexists. exists (EvJpeg <$> t').
                 split; [reflexivity|].
                 cbn [session_mid with_dest trace].
                 by rewrite !fmap_app, <- !app_assoc.
              ** do 2 eexists.
                 exists ((EvJpeg <$> t')
                           ++ [EvJpeg L_destroy_decompress; EvSliceFree]).
                 split; [reflexivity|].
                 cbn [session_end with_dest trace].
                 by rewrite !fmap_app, <- !app_assoc.
        -- do 2 eexists.
           exists [EvJpeg L_destroy_decompress; EvSliceFree].
           split; [reflexivity|]. by cbn [session_end trace].
Qed.

(** [_openslide_jpeg_destroy_decompress] on an installed bridge returns
    exactly if no error is pending. *)
Lemma destroy_asserts_no_pending s msg pending :
  installed s msg pending ->
  _openslide_jpeg_destroy_decompress s
  = match pending with
    | None =>
        (Ok tt,
         with_cinfo (logged s [EvJpeg L_destroy_decompress; EvSliceFree])
                    None (fields (cinfo s)))
    | Some _ =>
        (Stuck AssertionFailed, logged s [EvJpeg L_destroy_decompress])
    end.
Proof.
  destruct s as [[j c0] ce w h d32 d8 im t].
  unfold installed; simpl; intros ->.
  destruct pending; exec; [reflexivity|].
  by rewrite <- app_assoc.
Qed.

(** C7: the probe always returns, and the decoder returns unless the
    scanline loop is still running when the fuel is spent; whenever they
    return, no assertion has failed, the last events are the
    destruction of the decompression object and the release of the
    structure, and the bridge is gone. *)
Theorem session_always_destroyed fuel f buf buflen grayscale w h s :
  (exists b s' t,
     jpeg_get_dimensions f buf buflen s = (Ok b, s')
     /\ trace s'
        = trace s ++ EvSliceNew :: (EvJpeg <$> t)
            ++ [EvJpeg L_destroy_decompress; EvSliceFree]
     /\ cinfo_err (cinfo s') = None)
  /\ (exists o s' t,
        jpeg_decode fuel f buf buflen grayscale w h s = (o, s')
        /\ ((exists b,
               o = Ok b
               /\ trace s'
                  = trace s ++ EvSliceNew :: (EvJpeg <$> t)
                      ++ [EvJpeg L_destroy_decompress; EvSliceFree]
               /\ cinfo_err (cinfo s') = None)
            \/ (o = Stuck OutOfFuel
                /\ exists t1 c m r t2 c' m',
                     lib_start f buf buflen grayscale = Returned t1 c m r
                     /\ lib_scan fuel c m = Returned t2 c' m' false))).
Proof.
  split.
  - rewrite jpeg_get_dimensions_eq.
    destruct (lib_probe f buf buflen) as [t c m r | t c text];
      [destruct (header_rejected r)|]; by repeat eexists.
  - destruct (jpeg_decode_spec fuel f buf buflen grayscale w h s)
      as (m32 & m8 & _ & ->).
    destruct (lib_start f buf buflen grayscale) as [t c m r | t c text];
      [destruct (header_rejected r);
       [| destruct (dimension_mismatch w h c);
          [| destruct (lib_scan fuel c m) as [t' c' m' [] | t' c' text]
               eqn:Hscan]] |].
    all: try (do 3 eexists; split; [reflexivity|]; left;
              eexists; by repeat split).
    do 2 eexists. exists []. split; [reflexivity|]. right.
    split; [reflexivity|]. by repeat eexists.
Qed.

Lemma propagate_is_set (slot : error_slot) e :
  g_propagate_error slot (Some e) = g_set_error slot e.
Proof. by destruct slot as [[]|]. Qed.

(** C8: every call of the probe returns, whatever the state and the
    error slot it is called with, and what it returns is decided by what
    the library did.  An error occurred if a library call of the session
    raised an error or a warning, or if [jpeg_read_header] returned a
    value other than [JPEG_HEADER_OK] and [JPEG_HEADER_TABLES_ONLY].  In
    these cases, and only in them, the probe returns false; [*w] and
    [*h] are as before the call and the error, the library's text or the
    header message, is set in the caller's slot.  Otherwise the probe
    returns true, the slot is as before, and [*w] and [*h] hold the
    [output_width] and [output_height] of the structure as
    [jpeg_calc_output_dimensions] left it, converted to [int32_t]: the
    values themselves when they fit.  For a caller that passes an empty
    slot, false is returned exactly if the slot holds an error
    afterwards. *)
Theorem probe_dimensions_or_error f buf buflen s :
  exists b s',
    jpeg_get_dimensions f buf buflen s = (Ok b, s')
    /\ match lib_probe f buf buflen with
       | Raised _ _ text =>
           b = false
           /\ caller_err s' = g_set_error (caller_err s) (library_error text)
           /\ out_w s' = out_w s
           /\ out_h s' = out_h s
       | Returned _ c _ header_result =>
           if header_rejected header_result then
             b = false
             /\ caller_err s' = g_set_error (caller_err s) header_error
             /\ out_w s' = out_w s
             /\ out_h s' = out_h s
           else
             b = true
             /\ caller_err s' = caller_err s
             /\ out_w s' = Some (to_int32 (output_width c))
             /\ out_h s' = Some (to_int32 (output_height c))
             /\ (0 <= output_width c < 2 ^ 31 ->
                 0 <= output_height c < 2 ^ 31 ->
                 out_w s' = Some (output_width c)
                 /\ out_h s' = Some (output_height c))
       end
    /\ (caller_err s = Some None ->
        (b = false <-> exists e, caller_err s' = Some (Some e))).
Proof.
  rewrite jpeg_get_dimensions_eq.
  destruct (lib_probe f buf buflen) as [t c m r | t c text];
    [destruct (header_rejected r)|];
    do 2 eexists; (split; [reflexivity|]);
    cbn [session_end caller_err out_w out_h];
    rewrite ?propagate_is_set.
  - split; [done|]. intros ->. cbn [g_set_error].
    split; [by eexists | done].
  - split.
    + repeat (split; [done|]). intros Hw Hh.
      rewrite !to_int32_small by lia. done.
    + intros ->. split; [done | by intros [e ?]].
  - split; [done|]. intros ->. cbn [g_set_error].
    split; [by eexists | done].
Qed.

(** ** Files and associated images *)

Lemma session_events_jpeg (t : list lib_entry) :
  forallb session_event (EvJpeg <$> t) = true.
Proof. induction t as [|e t IH]; [done | exact IH]. Qed.

Lemma probe_trace f buf buflen s :
  exists t,
    trace (closing (jpeg_get_dimensions f buf buflen s)).2 = trace s ++ t
    /\ forallb session_event t = true.
Proof.
  rewrite jpeg_get_dimensions_eq.
  destruct (lib_probe f buf buflen) as [t c m r | t c text];
    [destruct (header_rejected r)|];
    cbn [closing snd session_end logged trace];
    rewrite <- app_assoc; eexists; (split; [reflexivity|]);
    cbn [app forallb session_event andb];
    by rewrite !forallb_app, session_events_jpeg.
Qed.

Lemma decode_trace fuel f buf buflen grayscale w h s :
  exists t,
    trace (closing (jpeg_decode fuel f buf buflen grayscale w h s)).2
    = trace s ++ t
    /\ forallb session_event t = true.
Proof.
  destruct (jpeg_decode_spec fuel f buf buflen grayscale w h s)
    as (m32 & m8 & _ & ->).
  destruct (lib_start f buf buflen grayscale) as [t c m r | t c text];
    [destruct (header_rejected r);
     [| destruct (dimension_mismatch w h c);
        [| destruct (lib_scan fuel c m) as [t' c' m' [] | t' c' text]]] |];
    cbn [closing snd session_end session_mid with_dest logged trace];
    rewrite <- ?app_assoc; eexists; (split; [reflexivity|]);
    cbn [app forallb session_event andb];
    by rewrite ?forallb_app, !session_events_jpeg.
Qed.

Lemma read_dimensions_eq path off s :
  _openslide_jpeg_read_dimensions path off s
  = match _openslide_fopen path with
    | inr e =>
        (Ok false,
         with_caller_err (logged s [EvFopen path])
                         (g_set_error (caller_err s) e))
    | inl f =>
        if off =? 0 then
          closing (jpeg_get_dimensions (Some f) None 0
                                       (logged s [EvFopen path]))
        else if fseeko_fails f off then (Ok false, seek_failure s path off)
        else
          closing (jpeg_get_dimensions (Some (mkFILE (f_path f) off))
                     None 0 (logged s [EvFopen path; EvFseeko off]))
    end.
Proof.
  destruct s as [ci ce w h d32 d8 im t].
  unfold _openslide_jpeg_read_dimensions, fopen, seek_fails,
    _openslide_io_error, seek_failure, with_caller_err, closing.
  destruct (_openslide_fopen path) as [f|e]; exec; [|reflexivity].
  destruct (off =? 0); exec.
  - by destruct (jpeg_get_dimensions _ _ _ _) as [[] ?].
  - destruct (fseeko_fails f off); exec.
    + by rewrite <- !app_assoc.
    + rewrite <- !app_assoc.
      by destruct (jpeg_get_dimensions _ _ _ _) as [[] ?].
Qed.

Lemma read_eq fuel path off w h s :
  _openslide_jpeg_read fuel path off w h s
  = match _openslide_fopen path with
    | inr e =>
        (Ok false,
         with_caller_err (logged s [EvFopen path])
                         (g_set_error (caller_err s) e))
    | inl f =>
        if off =? 0 then
          closing (jpeg_decode fuel (Some f) None 0 false w h
                               (logged s [EvFopen path]))
        else if fseeko_fails f off then (Ok false, seek_failure s path off)
        else
          closing (jpeg_decode fuel (Some (mkFILE (f_path f) off))
                     None 0 false w h
                     (logged s [EvFopen path; EvFseeko off]))
    end.
Proof.
  destruct s as [ci ce ow oh d32 d8 im t].
  unfold _openslide_jpeg_read, fopen, seek_fails,
    _openslide_io_error, seek_failure, with_caller_err, closing.
  destruct (_openslide_fopen path) as [f|e]; exec; [|reflexivity].
  destruct (off =? 0); exec.
  - by destruct (jpeg_decode _ _ _ _ _ _ _ _) as [[] ?].
  - destruct (fseeko_fails f off); exec.
    + by rewrite <- !app_assoc.
    + rewrite <- !app_assoc.
      by destruct (jpeg_decode _ _ _ _ _ _ _ _) as [[] ?].
Qed.

(** C10: with the file open, an offset of 0 means that no seek is made:
    the session runs on the handle as opened, and the events of the
    call after [EvFopen] are those of the session and the [fclose],
    with no seek and no I/O error among them.  For a nonzero offset
    whose seek fails, both calls return false with the I/O error
    "Cannot seek to offset" in the caller's slot, after the four events
    open, seek, error, close: no session has begun.  For a nonzero
    offset whose seek succeeds, the session runs on the handle at that
    offset. *)
Theorem seek_only_for_nonzero_offset fuel path off w h f s :
  _openslide_fopen path = inl f ->
  if off =? 0 then
    _openslide_jpeg_read_dimensions path off s
    = closing (jpeg_get_dimensions (Some f) None 0
                                   (logged s [EvFopen path]))
    /\ _openslide_jpeg_read fuel path off w h s
       = closing (jpeg_decode fuel (Some f) None 0 false w h
                              (logged s [EvFopen path]))
    /\ (exists t,
          trace (_openslide_jpeg_read_dimensions path off s).2
          = trace s ++ EvFopen path :: t
          /\ forallb session_event t = true)
    /\ (exists t,
          trace (_openslide_jpeg_read fuel path off w h s).2
          = trace s ++ EvFopen path :: t
          /\ forallb session_event t = true)
  else if fseeko_fails f off then
    _openslide_jpeg_read_dimensions path off s
    = (Ok false, seek_failure s path off)
    /\ _openslide_jpeg_read fuel path off w h s
       = (Ok false, seek_failure s path off)
    /\ caller_err (seek_failure s path off)
       = g_set_error (caller_err s) (io_error "Cannot seek to offset")
    /\ trace (seek_failure s path off)
       = trace s ++ [EvFopen path; EvFseeko off;
                     EvIoError "Cannot seek to offset"; EvFclose]
  else
    _openslide_jpeg_read_dimensions path off s
    = closing (jpeg_get_dimensions (Some (mkFILE (f_path f) off)) None 0
                 (logged s [EvFopen path; EvFseeko off]))
    /\ _openslide_jpeg_read fuel path off w h s
       = closing (jpeg_decode fuel (Some (mkFILE (f_path f) off)) None 0
                    false w h (logged s [EvFopen path; EvFseeko off])).
Proof.
  intros Hf. rewrite read_dimensions_eq, read_eq, Hf.
  destruct (off =? 0); [|by destruct (fseeko_fails f off)].
  repeat split.
  - destruct (probe_trace (Some f) None 0 (logged s [EvFopen path]))
      as (t & -> & Ht).
    exists t. split; [|exact Ht].
    cbn [logged trace]. by rewrite <- app_assoc.
  - destruct (decode_trace fuel (Some f) None 0 false w h
                           (logged s [EvFopen path]))
      as (t & -> & Ht).
    exists t. split; [|exact Ht].
    cbn [logged trace]. by rewrite <- app_assoc.
Qed.

Lemma read_dimensions_total path off s :
  exists ok s1,
    _openslide_jpeg_read_dimensions path off s = (Ok ok, s1)
    /\ associated_images s1 = associated_images s
    /\ if ok then exists w h, out_w s1 = Some w /\ out_h s1 = Some h
       else True.
Proof.
  rewrite read_dimensions_eq.
  destruct (_openslide_fopen path) as [f|e]; [|by repeat eexists].
  destruct (off =? 0); [|destruct (fseeko_fails f off)];
    rewrite ?jpeg_get_dimensions_eq;
    try (destruct (lib_probe _ _ _) as [t c m r | t c text];
         [destruct (header_rejected r)|]);
    by repeat eexists.
Qed.

(** C9: registration runs the file probe on fresh [w], [h].  If the probe
    returns false, so does the registration, the registry is as before,
    and the caller's slot holds the probe's error with "Can't read
    <name> associated image: " in front of its message.  If the probe
    returns true, the registration returns true and the registry maps
    [name] to an entry with the probed width and height, the given file
    name and the given offset. *)
Theorem register_associated_image name path off s :
  exists ok s1,
    _openslide_jpeg_read_dimensions path off (declared s) = (Ok ok, s1)
    /\ associated_images s1 = associated_images s
    /\ if ok then
         exists w h,
           out_w s1 = Some w
           /\ out_h s1 = Some h
           /\ _openslide_jpeg_add_associated_image name path off s
              = (Ok true,
                 with_images s1
                   (<[name := mkAssociatedImage jpeg_associated_ops
                                w h path off]> (associated_images s)))
       else
         _openslide_jpeg_add_associated_image name path off s
         = (Ok false,
            with_caller_err s1
              (g_prefix_error (caller_err s1)
                 ("Can't read " +:+ name +:+ " associated image: "))).
Proof.
  destruct (read_dimensions_total path off (declared s))
    as (ok & s1 & Heq & Him & Hdims).
  exists ok, s1. split; [exact Heq|]. split; [exact Him|].
  destruct s as [ci ce w0 h0 d32 d8 im t].
  unfold declared in Heq, Him; cbn in Heq, Him.
  unfold _openslide_jpeg_add_associated_image. exec.
  rewrite Heq. exec.
  destruct ok; exec; [|reflexivity].
  destruct Hdims as (w & h & Hw & Hh). exists w, h.
  destruct s1 as [ci1 ce1 w1 h1 d321 d81 im1 t1].
  cbn in Hw, Hh, Him. subst. by exec.
Qed.

(** * Further properties *)

(** ** The pixel format *)

Lemma sample_inj (a b : byte) : sample a = sample b -> a = b.
Proof.
  unfold sample. intros H. apply N2Z.inj in H.
  pose proof (Byte.of_to_N a) as Ha. rewrite H, Byte.of_to_N in Ha.
  congruence.
Qed.

Lemma channel_red (b : byte) :
  Z.land (Z.shiftr (Z.shiftl (sample b) 16) 16) 0xFF = sample b
  /\ Z.land (Z.shiftr (Z.shiftl (sample b) 16) 8) 0xFF = 0
  /\ Z.land (Z.shiftl (sample b) 16) 0xFF = 0
  /\ Z.shiftr (Z.shiftl (sample b) 16) 32 = 0.
Proof. destruct b; repeat split; reflexivity. Qed.

Lemma channel_green (b : byte) :
  Z.land (Z.shiftr (Z.shiftl (sample b) 8) 16) 0xFF = 0
  /\ Z.land (Z.shiftr (Z.shiftl (sample b) 8) 8) 0xFF = sample b
  /\ Z.land (Z.shiftl (sample b) 8) 0xFF = 0
  /\ Z.shiftr (Z.shiftl (sample b) 8) 32 = 0.
Proof. destruct b; repeat split; reflexivity. Qed.

Lemma channel_blue (b : byte) :
  Z.land (Z.shiftr (sample b) 16) 0xFF = 0
  /\ Z.land (Z.shiftr (sample b) 8) 0xFF = 0
  /\ Z.land (sample b) 0xFF = sample b
  /\ Z.shiftr (sample b) 32 = 0
  /\ 0 <= sample b.
Proof. destruct b; repeat split; try reflexivity; by vm_compute. Qed.

(** X1: a packed pixel gives back its three samples: bits 16-23 are the
    red sample, bits 8-15 the green one, bits 0-7 the blue one; the value
    fits in 32 bits, and two packed pixels are equal only if their
    samples are. *)
Theorem pack_argb_round_trip r g b r' g' b' :
  Z.land (Z.shiftr (pack_argb r g b) 16) 0xFF = sample r
  /\ Z.land (Z.shiftr (pack_argb r g b) 8) 0xFF = sample g
  /\ Z.land (pack_argb r g b) 0xFF = sample b
  /\ 0 <= pack_argb r g b < 2 ^ 32
  /\ (pack_argb r g b = pack_argb r' g' b' <-> r = r' /\ g = g' /\ b = b').
Proof.
  assert (forall r g b,
            Z.land (Z.shiftr (pack_argb r g b) 16) 0xFF = sample r
            /\ Z.land (Z.shiftr (pack_argb r g b) 8) 0xFF = sample g
            /\ Z.land (pack_argb r g b) 0xFF = sample b) as Hch.
  { clear. intros r g b.
    destruct (channel_red r) as (R1 & R2 & R3 & _).
    destruct (channel_green g) as (G1 & G2 & G3 & _).
    destruct (channel_blue b) as (B1 & B2 & B3 & _).
    unfold pack_argb.
    rewrite !Z.shiftr_lor, !Z.land_lor_distr_l.
    rewrite R1, R2, R3, G1, G2, G3, B1, B2, B3.
    repeat split; cbn; by rewrite ?Z.lor_0_r. }
  destruct (Hch r g b) as (H1 & H2 & H3).
  split; [exact H1|]. split; [exact H2|]. split; [exact H3|].
  split; [split|split].
  - unfold pack_argb. destruct (channel_blue b) as (_ & _ & _ & _ & Hb).
    rewrite !Z.lor_nonneg. repeat split; try done.
    all: apply Z.shiftl_nonneg; by destruct (channel_blue r), (channel_blue g);
      intuition.
  - assert (Z.shiftr (pack_argb r g b) 32 = 0) as H0.
    { unfold pack_argb.
      destruct (channel_red r) as (_ & _ & _ & R).
      destruct (channel_green g) as (_ & _ & _ & G).
      destruct (channel_blue b) as (_ & _ & _ & B & _).
      rewrite !Z.shiftr_lor, R, G, B. reflexivity. }
    apply Z.shiftr_eq_0_iff in H0 as [H0 | [Hpos Hlog]]; [lia|].
    apply Z.log2_lt_pow2; [exact Hpos | exact Hlog].
  - intros Heq.
    destruct (Hch r' g' b') as (H1' & H2' & H3').
    rewrite Heq in H1, H2, H3.
    repeat split; apply sample_inj; congruence.
  - by intros (-> & -> & ->).
Qed.

(** ** The layout of a batch *)

Lemma pixel_index (W x y a : Z) :
  0 <= x < W -> a = y * W + x -> a / W = y /\ a mod W = x.
Proof.
  intros Hx ->.
  rewrite (Z.add_comm (y * W) x), Z.div_add, Z.mod_add by lia.
  rewrite Z.div_small, Z.mod_small by lia. lia.
Qed.

Lemma row_index (W a : Z) :
  0 < W -> W <= a ->
  a / W = 1 + (a - W) / W /\ a mod W = (a - W) mod W.
Proof.
  intros HW Ha.
  replace a with ((a - W) + 1 * W) at 1 3 by lia.
  rewrite Z.div_add, Z.mod_add by lia. lia.
Qed.

(** The rows of a batch in the RGB branch. *)
Lemma copy_rows_rgb_rows n : forall cur_buffer buffer d32 d8 s,
  output_components (fields (cinfo s)) <> 1 ->
  0 <= output_width (fields (cinfo s)) < 2 ^ 31 ->
  let W := output_width (fields (cinfo s)) in
  exists m32,
    copy_rows n cur_buffer buffer d32 d8 s
    = (Ok (d32 + Z.of_nat n * W, d8), with_dest s m32 (dest8 s))
    /\ forall k,
         m32 !! k
         = if decide (d32 <= k < d32 + Z.of_nat n * W) then
             Some (pack_argb
                     (buffer (cur_buffer + (k - d32) / W)
                             ((k - d32) mod W * 3 + 0))
                     (buffer (cur_buffer + (k - d32) / W)
                             ((k - d32) mod W * 3 + 1))
                     (buffer (cur_buffer + (k - d32) / W)
                             ((k - d32) mod W * 3 + 2)))
           else dest32 s !! k.
Proof.
  induction n as [|n IH]; intros cur buffer d32 d8 s Hc HW W.
  - exists (dest32 s). split.
    + replace (d32 + Z.of_nat 0 * W) with d32 by lia. by destruct s.
    + intros k. case_decide; [lia | done].
  - subst W. destruct s as [[j c] ce w h m32 m8 im t].
    cbn [cinfo fields] in Hc, HW |- *.
    cbn [copy_rows]. exec.
    apply Z.eqb_neq in Hc as Hc'. rewrite Hc'.
    rewrite to_int32_small by lia.
    edestruct (IH (cur + 1) buffer (d32 + output_width c) d8)
      as (m32' & -> & Hm); [exact Hc | exact HW |].
    cbn [cinfo fields dest32 dest8 with_dest] in *.
    set (W := output_width c) in *.
    exists m32'. split.
    + replace (d32 + W + Z.of_nat n * W) with (d32 + Z.of_nat (S n) * W)
        by lia.
      reflexivity.
    + intros k. rewrite Hm, copy_rgb_lookup. rewrite Z2Nat.id by lia.
      destruct (decide (W = 0)) as [HW0 | HW0].
      * rewrite HW0. repeat case_decide; try lia; done.
      * repeat case_decide; try lia; try done.
        -- destruct (row_index W (k - d32)) as [Hd Hmod]; [lia | lia |].
           replace (k - (d32 + W)) with (k - d32 - W) by lia.
           rewrite Hd, Hmod.
           by replace (cur + (1 + (k - d32 - W) / W))
             with (cur + 1 + (k - d32 - W) / W) by lia.
        -- rewrite Z.div_small, Z.mod_small by lia.
           by rewrite (Z.add_0_r cur).
Qed.

(** X2: in the RGB branch a batch of [n] rows is stored row after row
    from the cursor on: word [d32 + y * W + x] becomes the packed pixel
    made of samples [3x], [3x+1], [3x+2] of row [cur_buffer + y] of the
    batch.  The words outside these [n * W], and the byte view, are
    untouched, nothing else in the state changes, and the cursor moves
    to the end of the range. *)
Theorem copy_rows_rgb_layout n cur_buffer buffer d32 d8 s :
  output_components (fields (cinfo s)) <> 1 ->
  0 <= output_width (fields (cinfo s)) < 2 ^ 31 ->
  let W := output_width (fields (cinfo s)) in
  exists m32,
    copy_rows n cur_buffer buffer d32 d8 s
    = (Ok (d32 + Z.of_nat n * W, d8), with_dest s m32 (dest8 s))
    /\ (forall x y,
          0 <= x < W ->
          0 <= y < Z.of_nat n ->
          m32 !! (d32 + y * W + x)
          = Some (pack_argb (buffer (cur_buffer + y) (x * 3 + 0))
                            (buffer (cur_buffer + y) (x * 3 + 1))
                            (buffer (cur_buffer + y) (x * 3 + 2))))
    /\ (forall k,
          ~ d32 <= k < d32 + Z.of_nat n * W -> m32 !! k = dest32 s !! k).
Proof.
  intros Hc HW W.
  destruct (copy_rows_rgb_rows n cur_buffer buffer d32 d8 s Hc HW)
    as (m32 & Heq & Hm).
  exists m32. split; [exact Heq|]. fold W in Hm. split.
  - intros x y Hx Hy. rewrite Hm.
    destruct (pixel_index W x y (d32 + y * W + x - d32) Hx ltac:(lia))
      as [-> ->].
    case_decide; [done | nia].
  - intros k Hk. rewrite Hm. case_decide; [lia | done].
Qed.

(** The rows of a batch in the grayscale branch. *)
Lemma copy_rows_gray_rows n : forall cur_buffer buffer d32 d8 s,
  output_components (fields (cinfo s)) = 1 ->
  0 <= output_width (fields (cinfo s)) < 2 ^ 31 ->
  let W := output_width (fields (cinfo s)) in
  exists m8,
    copy_rows n cur_buffer buffer d32 d8 s
    = (Ok (d32, d8 + Z.of_nat n * W), with_dest s (dest32 s) m8)
    /\ forall k,
         m8 !! k
         = if decide (d8 <= k < d8 + Z.of_nat n * W) then
             Some (buffer (cur_buffer + (k - d8) / W) ((k - d8) mod W))
           else dest8 s !! k.
Proof.
  induction n as [|n IH]; intros cur buffer d32 d8 s Hc HW W.
  - exists (dest8 s). split.
    + replace (d8 + Z.of_nat 0 * W) with d8 by lia. by destruct s.
    + intros k. case_decide; [lia | done].
  - subst W. destruct s as [[j c] ce w h m32 m8 im t].
    cbn [cinfo fields] in Hc, HW |- *.
    cbn [copy_rows]. exec.
    rewrite Hc, Z.eqb_refl.
    rewrite to_int32_small by lia.
    edestruct (IH (cur + 1) buffer d32 (d8 + output_width c))
      as (m8' & -> & Hm); [exact Hc | exact HW |].
    cbn [cinfo fields dest32 dest8 with_dest] in *.
    set (W := output_width c) in *.
    exists m8'. split.
    + replace (d8 + W + Z.of_nat n * W) with (d8 + Z.of_nat (S n) * W)
        by lia.
      reflexivity.
    + intros k. rewrite Hm, copy_gray_lookup. rewrite Z2Nat.id by lia.
      destruct (decide (W = 0)) as [HW0 | HW0].
      * rewrite HW0. repeat case_decide; try lia; done.
      * repeat case_decide; try lia; try done.
        -- destruct (row_index W (k - d8)) as [Hd Hmod]; [lia | lia |].
           replace (k - (d8 + W)) with (k - d8 - W) by lia.
           rewrite Hd, Hmod.
           by replace (cur + (1 + (k - d8 - W) / W))
             with (cur + 1 + (k - d8 - W) / W) by lia.
        -- rewrite Z.div_small, Z.mod_small by lia.
           by rewrite (Z.add_0_r cur).
Qed.

(** X3: in the grayscale branch a batch of [n] rows is copied row after
    row from the cursor on: byte [d8 + y * W + x] becomes sample [x] of
    row [cur_buffer + y] of the batch, unchanged.  The bytes outside
    these [n * W], and the word view, are untouched, and the cursor
    moves to the end of the range. *)
Theorem copy_rows_gray_layout n cur_buffer buffer d32 d8 s :
  output_components (fields (cinfo s)) = 1 ->
  0 <= output_width (fields (cinfo s)) < 2 ^ 31 ->
  let W := output_width (fields (cinfo s)) in
  exists m8,
    copy_rows n cur_buffer buffer d32 d8 s
    = (Ok (d32, d8 + Z.of_nat n * W), with_dest s (dest32 s) m8)
    /\ (forall x y,
          0 <= x < W ->
          0 <= y < Z.of_nat n ->
          m8 !! (d8 + y * W + x) = Some (buffer (cur_buffer + y) x))
    /\ (forall k,
          ~ d8 <= k < d8 + Z.of_nat n * W -> m8 !! k = dest8 s !! k).
Proof.
  intros Hc HW W.
  destruct (copy_rows_gray_rows n cur_buffer buffer d32 d8 s Hc HW)
    as (m8 & Heq & Hm).
  exists m8. split; [exact Heq|]. fold W in Hm. split.
  - intros x y Hx Hy. rewrite Hm.
    destruct (pixel_index W x y (d8 + y * W + x - d8) Hx ltac:(lia))
      as [-> ->].
    case_decide; [done | nia].
  - intros k Hk. rewrite Hm. case_decide; [lia | done].
Qed.

(** ** The decoder on a source the library delivers *)

(** The decoder up to the scanline loop, with the loop left as it is. *)
Lemma jpeg_decode_scan_eq fuel f buf buflen grayscale w h s :
  jpeg_decode fuel f buf buflen grayscale w h s =
    match lib_start f buf buflen grayscale with
    | Raised t c text =>
        (Ok false,
         session_end s t c
           (g_propagate_error (caller_err s) (Some (library_error text)))
           (out_w s) (out_h s))
    | Returned t c m header_result =>
        if header_rejected header_result then
          (Ok false,
           session_end s t c (g_set_error (caller_err s) header_error)
                       (out_w s) (out_h s))
        else if dimension_mismatch w h c then
          (Ok false,
           session_end s t c
             (g_set_error (caller_err s)
                (mismatch_error w h (to_int32 (output_width c))
                                (to_int32 (output_height c))))
             (out_w s) (out_h s))
        else
          after_scan (decompress fuel 0 0
                        (session_mid s t (Some (bridge m None)) c))
    end.
Proof.
  destruct s as [ci ce ow oh d32 d8 im t].
  unfold jpeg_decode, lib_start, lib_header, lib_source, source_entry,
    dimension_mismatch.
  destruct f as [f'|]; exec.
  all: lib_call; [lib_call; [lib_call|] |].
  all: try header_cases.
  all: try lib_call.
  all: try match goal with
           | |- context [negb (?x =? ?a) || negb (?y =? ?b)] =>
               destruct (negb (x =? a) || negb (y =? b)) eqn:Hm; exec
           end.
  all: try same_trace.
  all: rewrite ?Hr, ?Hm; unfold after_scan, session_mid; exec;
    cbn [fmap list_fmap app]; rewrite <- ?app_assoc; cbn [app].
  all: destruct (decompress _ _ _ _)
         as [o [[[[ee om em mt pe]|] c'] ce' ow' oh' d32' d8' im' t']];
    destruct o; try reflexivity; destruct ee, pe; reflexivity.
Qed.

Lemma row_shift (W a r : Z) :
  0 < W -> a / W = r + (a - r * W) / W /\ a mod W = (a - r * W) mod W.
Proof.
  intros HW.
  replace a with ((a - r * W) + r * W) at 1 3 by lia.
  rewrite Z.div_add, Z.mod_add by lia. lia.
Qed.

(** The scanline loop in the RGB branch. *)
Lemma decompress_rgb img W H comps :
  comps <> 1 -> 0 <= W < 2 ^ 31 -> delivers img W H comps ->
  forall fuel d32 d8 s m,
    installed s m None ->
    output_width (fields (cinfo s)) = W ->
    output_height (fields (cinfo s)) = H ->
    output_components (fields (cinfo s)) = comps ->
    0 <= output_scanline (fields (cinfo s)) <= H ->
    (Z.to_nat (H - output_scanline (fields (cinfo s))) <= fuel)%nat ->
    exists t c' m' m32,
      decompress fuel d32 d8 s
      = (Ok tt,
         with_dest (with_cinfo (logged s (EvJpeg <$> t))
                               (Some (bridge m' None)) c')
                   m32 (dest8 s))
      /\ forall k,
           m32 !! k
           = let y0 := output_scanline (fields (cinfo s)) in
             if decide (d32 <= k < d32 + (H - y0) * W) then
               Some (pack_argb
                       (img (y0 + (k - d32) / W) ((k - d32) mod W * 3 + 0))
                       (img (y0 + (k - d32) / W) ((k - d32) mod W * 3 + 1))
                       (img (y0 + (k - d32) / W) ((k - d32) mod W * 3 + 2)))
             else dest32 s !! k.
Proof.
  intros Hcomps HW Hdel.
  induction fuel as [|fuel IH]; intros d32 d8 s m Hs HsW HsH HsC Hy Hfuel;
    destruct s as [[j c0] ce w h m32 m8 im t];
    unfold installed in Hs; cbn [cinfo cinfo_err fields dest32 dest8] in *;
    subst j; cbn [decompress]; exec; rewrite HsH;
    destruct (Z.ltb_spec (output_scanline c0) H) as [Hlt | Hge].
  - lia.
  - exists [], c0, m, m32. split.
    + cbn [fmap list_fmap]. by rewrite app_nil_r.
    + intros k. cbv zeta. case_decide; [nia | done].
  - destruct (Hdel c0 m HsW HsH HsC ltac:(lia))
      as (c' & m' & r & buffer & Hv & Hr & Hsc & Hle & HW' & HH' & HC'
          & Himg).
    erewrite call_lib_verdict by reflexivity. exec. rewrite Hv. exec.
    match goal with
    | |- context [copy_rows ?n ?cur ?b ?a1 ?a2 ?st] =>
        edestruct (copy_rows_rgb_rows n cur b a1 a2 st)
          as (m1 & Hcopy & Hm1)
    end.
    { cbn [cinfo fields]. congruence. }
    { cbn [cinfo fields]. lia. }
    cbn [cinfo fields dest32 dest8 with_dest] in Hcopy, Hm1.
    rewrite Hcopy. exec.
    rewrite HW', Z2Nat.id in * by lia.
    match goal with
    | |- context [decompress fuel ?a1 ?a2 ?st] =>
        edestruct (IH a1 a2 st m') as (t' & c'' & m'' & m2 & Hrest & Hm2)
    end; try reflexivity; cbn [cinfo fields]; try lia.
    cbn [cinfo fields dest32 dest8 with_dest with_cinfo logged trace]
      in Hrest, Hm2.
    rewrite Hrest.
    exists (L_read_scanlines :: t'), c'', m'', m2. split.
    + exec. cbn [fmap list_fmap]. by rewrite <- app_assoc.
    + intros k. cbv zeta in *. rewrite Hm2, Hm1, Hsc.
      set (y0 := output_scanline c0) in *.
      assert (0 <= r * W) by nia.
      assert (r * W <= (H - y0) * W) by nia.
      destruct (decide (W = 0)) as [HW0 | HW0].
      * subst W. repeat case_decide; first [lia | done].
      * repeat case_decide; try lia; try done.
        -- destruct (row_shift W (k - d32) r) as [Hd Hmod]; [lia|].
           replace (k - (d32 + r * W)) with (k - d32 - r * W) by lia.
           rewrite Hd, Hmod.
           by replace (y0 + (r + (k - d32 - r * W) / W))
             with (y0 + r + (k - d32 - r * W) / W) by lia.
        -- assert (0 <= (k - d32) / W < r) as Hj.
           { split; [apply Z.div_pos; lia |].
             apply Z.div_lt_upper_bound; lia. }
           rewrite !Himg by lia.
           by rewrite (Z.add_0_l ((k - d32) / W)).
  - exists [], c0, m, m32. split.
    + cbn [fmap list_fmap]. by rewrite app_nil_r.
    + intros k. cbv zeta. case_decide; [nia | done].
Qed.

(** The scanline loop in the grayscale branch. *)
Lemma decompress_gray img W H comps :
  comps = 1 -> 0 <= W < 2 ^ 31 -> delivers img W H comps ->
  forall fuel d32 d8 s m,
    installed s m None ->
    output_width (fields (cinfo s)) = W ->
    output_height (fields (cinfo s)) = H ->
    output_components (fields (cinfo s)) = comps ->
    0 <= output_scanline (fields (cinfo s)) <= H ->
    (Z.to_nat (H - output_scanline (fields (cinfo s))) <= fuel)%nat ->
    exists t c' m' m8,
      decompress fuel d32 d8 s
      = (Ok tt,
         with_dest (with_cinfo (logged s (EvJpeg <$> t))
                               (Some (bridge m' None)) c')
                   (dest32 s) m8)
      /\ forall k,
           m8 !! k
           = let y0 := output_scanline (fields (cinfo s)) in
             if decide (d8 <= k < d8 + (H - y0) * W) then
               Some (img (y0 + (k - d8) / W) ((k - d8) mod W))
             else dest8 s !! k.
Proof.
  intros Hcomps HW Hdel.
  induction fuel as [|fuel IH]; intros d32 d8 s m Hs HsW HsH HsC Hy Hfuel;
    destruct s as [[j c0] ce w h m32 m8 im t];
    unfold installed in Hs; cbn [cinfo cinfo_err fields dest32 dest8] in *;
    subst j; cbn [decompress]; exec; rewrite HsH;
    destruct (Z.ltb_spec (output_scanline c0) H) as [Hlt | Hge].
  - lia.
  - exists [], c0, m, m8. split.
    + cbn [fmap list_fmap]. by rewrite app_nil_r.
    + intros k. cbv zeta. case_decide; [nia | done].
  - destruct (Hdel c0 m HsW HsH HsC ltac:(lia))
      as (c' & m' & r & buffer & Hv & Hr & Hsc & Hle & HW' & HH' & HC'
          & Himg).
    erewrite call_lib_verdict by reflexivity. exec. rewrite Hv. exec.
    match goal with
    | |- context [copy_rows ?n ?cur ?b ?a1 ?a2 ?st] =>
        edestruct (copy_rows_gray_rows n cur b a1 a2 st)
          as (m1 & Hcopy & Hm1)
    end.
    { cbn [cinfo fields]. congruence. }
    { cbn [cinfo fields]. lia. }
    cbn [cinfo fields dest32 dest8 with_dest] in Hcopy, Hm1.
    rewrite Hcopy. exec.
    rewrite HW', Z2Nat.id in * by lia.
    match goal with
    | |- context [decompress fuel ?a1 ?a2 ?st] =>
        edestruct (IH a1 a2 st m') as (t' & c'' & m'' & m2 & Hrest & Hm2)
    end; try reflexivity; cbn [cinfo fields]; try lia.
    cbn [cinfo fields dest32 dest8 with_dest with_cinfo logged trace]
      in Hrest, Hm2.
    rewrite Hrest.
    exists (L_read_scanlines :: t'), c'', m'', m2. split.
    + exec. cbn [fmap list_fmap]. by rewrite <- app_assoc.
    + intros k. cbv zeta in *. rewrite Hm2, Hm1, Hsc.
      set (y0 := output_scanline c0) in *.
      assert (0 <= r * W) by nia.
      assert (r * W <= (H - y0) * W) by nia.
      destruct (decide (W = 0)) as [HW0 | HW0].
      * subst W. repeat case_decide; first [lia | done].
      * repeat case_decide; try lia; try done.
        -- destruct (row_shift W (k - d8) r) as [Hd Hmod]; [lia|].
           replace (k - (d8 + r * W)) with (k - d8 - r * W) by lia.
           rewrite Hd, Hmod.
           by replace (y0 + (r + (k - d8 - r * W) / W))
             with (y0 + r + (k - d8 - r * W) / W) by lia.
        -- assert (0 <= (k - d8) / W < r) as Hj.
           { split; [apply Z.div_pos; lia |].
             apply Z.div_lt_upper_bound; lia. }
           rewrite !Himg by lia.
           by rewrite (Z.add_0_l ((k - d8) / W)).
  - exists [], c0, m, m8. split.
    + cbn [fmap list_fmap]. by rewrite app_nil_r.
    + intros k. cbv zeta. case_decide; [nia | done].
Qed.



(** ** A source that never advances *)


(** ** The order of the library calls *)

Lemma entries_prepend {A} t (r : lib_result lib_private A) :
  entries_of (prepend t r) = t ++ entries_of r.
Proof. by destruct r. Qed.

Lemma lib_header_entries f buf buflen :
  entries_of (lib_header f buf buflen)
  `prefix_of` [L_create_decompress; source_entry f; L_read_header].
Proof.
  unfold lib_header.
  destruct (verdict (jpeg_create_decompress zero_fields) "")
    as [c1 m1 []|]; cbn [called and_then]; [|by eexists [_; _]].
  rewrite entries_prepend.
  destruct (verdict (lib_source f buf buflen c1) m1) as [c2 m2 []|];
    cbn [called and_then]; [|by eexists [_]].
  rewrite entries_prepend.
  by destruct (verdict (jpeg_read_header c2) m2); exists [].
Qed.

Lemma lib_header_returned f buf buflen t c m r :
  lib_header f buf buflen = Returned t c m r ->
  t = [L_create_decompress; source_entry f; L_read_header].
Proof.
  unfold lib_header.
  destruct (verdict (jpeg_create_decompress zero_fields) "")
    as [c1 m1 []|]; cbn [called and_then]; [|done].
  destruct (verdict (lib_source f buf buflen c1) m1) as [c2 m2 []|];
    cbn [called and_then prepend]; [|done].
  destruct (verdict (jpeg_read_header c2) m2);
    cbn [called prepend]; [|done].
  by intros [= <- _ _ _].
Qed.

Lemma lib_probe_entries f buf buflen :
  entries_of (lib_probe f buf buflen)
  `prefix_of` [L_create_decompress; source_entry f; L_read_header;
               L_calc_output_dimensions].
Proof.
  pose proof (lib_header_entries f buf buflen) as Hh.
  unfold lib_probe.
  destruct (lib_header f buf buflen) as [t c m r | t c text] eqn:Heq;
    cbn [and_then entries_of] in *.
  - apply lib_header_returned in Heq as ->.
    destruct (header_rejected r); rewrite entries_prepend;
      [by exists [L_calc_output_dimensions]|].
    by destruct (verdict (jpeg_calc_output_dimensions c) m); exists [].
  - etrans; [exact Hh|]. by exists [L_calc_output_dimensions].
Qed.

Lemma lib_start_entries f buf buflen grayscale :
  entries_of (lib_start f buf buflen grayscale)
  `prefix_of` [L_create_decompress; source_entry f; L_read_header;
               L_start_decompress]
  /\ forall t c m r,
       lib_start f buf buflen grayscale = Returned t c m r ->
       header_rejected r = false ->
       t = [L_create_decompress; source_entry f; L_read_header;
            L_start_decompress].
Proof.
  pose proof (lib_header_entries f buf buflen) as Hh.
  unfold lib_start.
  destruct (lib_header f buf buflen) as [t c m r | t c text] eqn:Heq;
    cbn [and_then entries_of] in *.
  - apply lib_header_returned in Heq as ->.
    destruct (header_rejected r) eqn:Hr.
    + split; [by exists [L_start_decompress]|].
      intros ? ? ? ? [= _ _ _ <-]. congruence.
    + destruct (verdict (jpeg_start_decompress _) m);
        cbn [called and_then prepend entries_of].
      * split; [by exists []|]. by intros ? ? ? ? [= <- _ _ _].
      * split; [by exists [] | done].
  - split; [|done]. etrans; [exact Hh|]. by exists [L_start_decompress].
Qed.

Lemma lib_scan_entries fuel : forall c m,
  exists n,
    (n <= fuel)%nat
    /\ entries_of (lib_scan fuel c m) = replicate n L_read_scanlines.
Proof.
  induction fuel as [|fuel IH]; intros c m; cbn [lib_scan];
    destruct (output_scanline c <? output_height c);
    try by (exists 0%nat; split; [lia | done]).
  destruct (verdict _ m) as [c' m' batch|]; cbn [called and_then].
  - rewrite entries_prepend.
    destruct (IH c' m') as (n & Hn & ->).
    exists (S n). split; [lia | done].
  - exists 1%nat. split; [lia | done].
Qed.

(** X15: the library is called in its order of use.  The calls of the
    probe are an initial part of: create, the source manager of the kind
    of source (stdio for a file, memory for a buffer), read header,
    calculate output dimensions.  Those of the decoder are an initial
    part of: create, source manager, read header, start decompress, and
    at most [fuel] scanline reads.  In both, the destruction follows
    whenever the call returns. *)
Theorem library_call_order fuel f buf buflen grayscale w h s :
  (exists b s' t,
     jpeg_get_dimensions f buf buflen s = (Ok b, s')
     /\ trace s'
        = trace s ++ EvSliceNew :: (EvJpeg <$> t)
            ++ [EvJpeg L_destroy_decompress; EvSliceFree]
     /\ t `prefix_of` [L_create_decompress; source_entry f; L_read_header;
                       L_calc_output_dimensions])
  /\ (exists o s' t n,
        jpeg_decode fuel f buf buflen grayscale w h s = (o, s')
        /\ trace s'
           = trace s ++ EvSliceNew :: (EvJpeg <$> t)
               ++ (if o is Ok _
                   then [EvJpeg L_destroy_decompress; EvSliceFree]
                   else [])
        /\ (n <= fuel)%nat
        /\ t `prefix_of` [L_create_decompress; source_entry f; L_read_header;
                          L_start_decompress]
                           ++ replicate n L_read_scanlines).
Proof.
  split.
  - rewrite jpeg_get_dimensions_eq.
    pose proof (lib_probe_entries f buf buflen) as Hp.
    destruct (lib_probe f buf buflen) as [t c m r | t c text];
      [destruct (header_rejected r)|];
      do 3 eexists; (split; [reflexivity|]); (split; [reflexivity|]);
      exact Hp.
  - destruct (jpeg_decode_spec fuel f buf buflen grayscale w h s)
      as (m32 & m8 & _ & ->).
    destruct (lib_start_entries f buf buflen grayscale) as [Hpre Hfull].
    destruct (lib_start f buf buflen grayscale) as [t c m r | t c text]
      eqn:Hst; cbn [entries_of] in Hpre.
    + destruct (header_rejected r) eqn:Hr;
        [|destruct (dimension_mismatch w h c)].
      * exists (Ok false). do 2 eexists. exists 0%nat.
        split; [reflexivity|]. split; [reflexivity|]. split; [lia|].
        by rewrite app_nil_r.
      * exists (Ok false). do 2 eexists. exists 0%nat.
        split; [reflexivity|]. split; [reflexivity|]. split; [lia|].
        by rewrite app_nil_r.
      * rewrite (Hfull _ _ _ _ eq_refl Hr) in *.
        destruct (lib_scan_entries fuel c m) as (n & Hn & Hent).
        destruct (lib_scan fuel c m) as [t' c' m' [] | t' c' text];
          cbn [entries_of] in Hent; subst t'.
        -- exists (Ok true). do 2 eexists. exists n.
           split; [reflexivity|]. split; [reflexivity|]. by split.
        -- exists (Stuck OutOfFuel). do 2 eexists. exists n.
           split; [reflexivity|].
           split; [by rewrite app_nil_r|]. by split.
        -- exists (Ok false). do 2 eexists. exists n.
           split; [reflexivity|]. split; [reflexivity|]. by split.
    + exists (Ok false). do 2 eexists. exists 0%nat.
      split; [reflexivity|]. split; [reflexivity|]. split; [lia|].
      by rewrite app_nil_r.
Qed.

(** ** Errors of the library *)

(** X7: an error or a warning raised while the session is created, the
    source is set up or the header is read ends the probe and the decoder
    alike: both return false, nothing but the error slot changes, the
    slot receives an [OPENSLIDE_ERROR] whose message is the library's
    text, and the session is destroyed. *)
Theorem header_phase_error_reported
    fuel f buf buflen grayscale w h s t c text :
  lib_header f buf buflen = Raised t c text ->
  message (library_error text) = text
  /\ jpeg_get_dimensions f buf buflen s
     = (Ok false,
        session_end s t c (g_set_error (caller_err s) (library_error text))
                    (out_w s) (out_h s))
  /\ jpeg_decode fuel f buf buflen grayscale w h s
     = (Ok false,
        session_end s t c (g_set_error (caller_err s) (library_error text))
                    (out_w s) (out_h s)).
Proof.
  intros Hh. split; [reflexivity|].
  rewrite jpeg_get_dimensions_eq, jpeg_decode_scan_eq.
  unfold lib_probe, lib_start. rewrite Hh. cbn [and_then].
  by rewrite propagate_is_set.
Qed.

(** X8: an error or a warning raised by [jpeg_read_scanlines] in the
    middle of the image: the decoder returns false with the library's
    text in the error slot, the session is destroyed after the calls
    made so far, the out-parameters are untouched, and the words stored
    before the error are packed pixels. *)
Theorem scan_error_reported
    fuel f buf buflen grayscale w h s t c m header_result t' c' text :
  lib_start f buf buflen grayscale = Returned t c m header_result ->
  header_rejected header_result = false ->
  dimension_mismatch w h c = false ->
  lib_scan fuel c m = Raised t' c' text ->
  exists s',
    jpeg_decode fuel f buf buflen grayscale w h s = (Ok false, s')
    /\ caller_err s' = g_set_error (caller_err s) (library_error text)
    /\ trace s'
       = trace s ++ EvSliceNew :: (EvJpeg <$> t ++ t')
           ++ [EvJpeg L_destroy_decompress; EvSliceFree]
    /\ cinfo_err (cinfo s') = None
    /\ out_w s' = out_w s
    /\ out_h s' = out_h s
    /\ pixels_only (dest32 s) (dest32 s').
Proof.
  intros Hst Hr Hmis Hscan.
  destruct (jpeg_decode_spec fuel f buf buflen grayscale w h s)
    as (m32 & m8 & Hp & ->).
  rewrite Hst, Hr, Hmis, Hscan.
  eexists. split; [reflexivity|].
  cbn [with_dest session_end caller_err trace cinfo cinfo_err out_w out_h
       dest32].
  by rewrite propagate_is_set.
Qed.

(** X9: what the probe and the decoder return depends on the source and
    the arguments only, never on the state they are called in: a session
    that failed, an error left in the slot or data in the destination
    have no influence on the next call. *)
Theorem outcome_independent_of_state
    fuel f buf buflen grayscale w h s1 s2 :
  (jpeg_get_dimensions f buf buflen s1).1
  = (jpeg_get_dimensions f buf buflen s2).1
  /\ (if (jpeg_get_dimensions f buf buflen s1).1 is Ok true then
        out_w (jpeg_get_dimensions f buf buflen s1).2
        = out_w (jpeg_get_dimensions f buf buflen s2).2
        /\ out_h (jpeg_get_dimensions f buf buflen s1).2
           = out_h (jpeg_get_dimensions f buf buflen s2).2
      else True)
  /\ (jpeg_decode fuel f buf buflen grayscale w h s1).1
     = (jpeg_decode fuel f buf buflen grayscale w h s2).1.
Proof.
  rewrite !jpeg_get_dimensions_eq.
  destruct (jpeg_decode_spec fuel f buf buflen grayscale w h s1)
    as (? & ? & _ & ->).
  destruct (jpeg_decode_spec fuel f buf buflen grayscale w h s2)
    as (? & ? & _ & ->).
  split; [|split].
  - by destruct (lib_probe f buf buflen) as [? ? ? r|];
      [destruct (header_rejected r)|].
  - by destruct (lib_probe f buf buflen) as [? ? ? r|];
      [destruct (header_rejected r)|].
  - destruct (lib_start f buf buflen grayscale) as [? c ? r|];
      [destruct (header_rejected r);
       [|destruct (dimension_mismatch w h c);
         [|destruct (lib_scan fuel c _) as [? ? ? []|]]]|];
      reflexivity.
Qed.

(** ** Files *)

(** X10: when the file cannot be opened, the probe and the decoder return
    false with the error of [_openslide_fopen] in the slot, and the only
    external call made is that attempt: no seek, no session, no
    [fclose].  Registration then fails with the same error behind its
    prefix, and the registry is unchanged. *)
Theorem open_failure_propagates name path off fuel w h e s :
  _openslide_fopen path = inr e ->
  _openslide_jpeg_read_dimensions path off s
  = (Ok false,
     with_caller_err (logged s [EvFopen path]) (g_set_error (caller_err s) e))
  /\ _openslide_jpeg_read fuel path off w h s
     = (Ok false,
        with_caller_err (logged s [EvFopen path])
                        (g_set_error (caller_err s) e))
  /\ exists s',
       _openslide_jpeg_add_associated_image name path off s = (Ok false, s')
       /\ caller_err s'
          = g_prefix_error (g_set_error (caller_err s) e)
              ("Can't read " +:+ name +:+ " associated image: ")
       /\ associated_images s' = associated_images s
       /\ trace s' = trace s ++ [EvFopen path].
Proof.
  intros He. rewrite read_dimensions_eq, read_eq, He.
  split; [reflexivity|]. split; [reflexivity|].
  pose proof (read_dimensions_eq path off (declared s)) as Heq.
  rewrite He in Heq.
  destruct s as [ci ce w0 h0 d32 d8 im t].
  unfold declared, with_caller_err, logged in Heq; cbn in Heq.
  unfold _openslide_jpeg_add_associated_image. exec.
  rewrite Heq. exec. by eexists.
Qed.

Lemma inner_events_jpeg (t : list lib_entry) :
  forallb inner_event (EvJpeg <$> t) = true.
Proof. induction t as [|e t IH]; [done | exact IH]. Qed.

(** The events of a session, between its first and its last. *)
Lemma probe_inner_trace f buf buflen s :
  exists b s' t,
    jpeg_get_dimensions f buf buflen s = (Ok b, s')
    /\ trace s' = trace s ++ t
    /\ forallb inner_event t = true.
Proof.
  rewrite jpeg_get_dimensions_eq.
  destruct (lib_probe f buf buflen) as [t c m r | t c text];
    [destruct (header_rejected r)|];
    do 3 eexists; (split; [reflexivity|]);
    cbn [session_end trace]; (split; [reflexivity|]);
    cbn [forallb inner_event andb];
    by rewrite forallb_app, inner_events_jpeg.
Qed.

Lemma decode_inner_trace fuel f buf buflen grayscale w h s :
  exists o s' t,
    jpeg_decode fuel f buf buflen grayscale w h s = (o, s')
    /\ (o = Stuck OutOfFuel \/ exists b, o = Ok b)
    /\ trace s' = trace s ++ t
    /\ forallb inner_event t = true.
Proof.
  destruct (jpeg_decode_spec fuel f buf buflen grayscale w h s)
    as (m32 & m8 & _ & ->).
  destruct (lib_start f buf buflen grayscale) as [t c m r | t c text];
    [destruct (header_rejected r);
     [| destruct (dimension_mismatch w h c);
        [| destruct (lib_scan fuel c m) as [t' c' m' [] | t' c' text]]] |];
    do 3 eexists; (split; [reflexivity|]);
    (split; [first [by left | right; by eexists]|]);
    cbn [session_end session_mid with_dest trace]; (split; [reflexivity|]);
    cbn [forallb inner_event andb];
    by rewrite ?forallb_app, !inner_events_jpeg.
Qed.

(** X11: once the file is open, every return of the file probe and of the
    file decoder comes after exactly one [fclose], which is the last
    event of the call, whether the seek failed, the session failed or
    the call succeeded. *)
Theorem file_closed_on_every_return fuel path off w h f s :
  _openslide_fopen path = inl f ->
  (exists b s' t,
     _openslide_jpeg_read_dimensions path off s = (Ok b, s')
     /\ trace s' = trace s ++ EvFopen path :: t ++ [EvFclose]
     /\ forallb inner_event t = true)
  /\ (exists o s' t,
        _openslide_jpeg_read fuel path off w h s = (o, s')
        /\ (o = Stuck OutOfFuel
            \/ (exists b, o = Ok b)
               /\ trace s' = trace s ++ EvFopen path :: t ++ [EvFclose]
               /\ forallb inner_event t = true)).
Proof.
  intros Hf. rewrite read_dimensions_eq, read_eq, Hf. split.
  - destruct (off =? 0); [|destruct (fseeko_fails f off)].
    + destruct (probe_inner_trace (Some f) None 0 (logged s [EvFopen path]))
        as (b & s' & t & -> & Ht & Hin).
      exists b, (logged s' [EvFclose]), t.
      split; [reflexivity|]. split; [|exact Hin].
      cbn [logged trace] in *. rewrite Ht. by rewrite <- !app_assoc.
    + exists false, (seek_failure s path off),
        [EvFseeko off; EvIoError "Cannot seek to offset"].
      by repeat split.
    + destruct (probe_inner_trace (Some (mkFILE (f_path f) off)) None 0
                  (logged s [EvFopen path; EvFseeko off]))
        as (b & s' & t & -> & Ht & Hin).
      exists b, (logged s' [EvFclose]), (EvFseeko off :: t).
      split; [reflexivity|]. split; [|exact Hin].
      cbn [logged trace] in *. rewrite Ht. by rewrite <- !app_assoc.
  - destruct (off =? 0); [|destruct (fseeko_fails f off)].
    + destruct (decode_inner_trace fuel (Some f) None 0 false w h
                  (logged s [EvFopen path]))
        as (o & s' & t & -> & [-> | [b ->]] & Ht & Hin).
      * exists (Stuck OutOfFuel), s', []. split; [reflexivity | by left].
      * exists (Ok b), (logged s' [EvFclose]), t.
        split; [reflexivity|]. right. split; [by eexists|].
        split; [|exact Hin].
        cbn [logged trace] in *. rewrite Ht. by rewrite <- !app_assoc.
    + exists (Ok false), (seek_failure s path off),
        [EvFseeko off; EvIoError "Cannot seek to offset"].
      split; [reflexivity|]. right. split; [by eexists|]. by split.
    + destruct (decode_inner_trace fuel (Some (mkFILE (f_path f) off))
                  None 0 false w h (logged s [EvFopen path; EvFseeko off]))
        as (o & s' & t & -> & [-> | [b ->]] & Ht & Hin).
      * exists (Stuck OutOfFuel), s', []. split; [reflexivity | by left].
      * exists (Ok b), (logged s' [EvFclose]), (EvFseeko off :: t).
        split; [reflexivity|]. right. split; [by eexists|].
        split; [|exact Hin].
        cbn [logged trace] in *. rewrite Ht. by rewrite <- !app_assoc.
Qed.

(** ** The registry *)

Lemma add_associated_image_eq name path off s :
  _openslide_jpeg_add_associated_image name path off s
  = match _openslide_jpeg_read_dimensions path off (declared s) with
    | (Ok true, s0) =>
        match out_w s0, out_h s0 with
        | Some w, Some h =>
            (Ok true,
             with_images s0
               (<[name := mkAssociatedImage jpeg_associated_ops w h path off]>
                  (associated_images s0)))
        | _, _ => (Stuck IndeterminateRead, s0)
        end
    | (Ok false, s0) =>
        (Ok false,
         with_caller_err s0
           (g_prefix_error (caller_err s0)
              ("Can't read " +:+ name +:+ " associated image: ")))
    | (Jump, s0) => (Jump, s0)
    | (Stuck why, s0) => (Stuck why, s0)
    end.
Proof.
  destruct s as [ci ce w0 h0 d32 d8 im t].
  unfold _openslide_jpeg_add_associated_image, declared. exec.
  destruct (_openslide_jpeg_read_dimensions path off _)
    as [[[]| |] [ci1 ce1 [w1|] [h1|] d321 d81 im1 t1]]; reflexivity.
Qed.

(** A registration that succeeds has probed the file and inserted the
    entry. *)
Lemma add_success name path off s s1 :
  _openslide_jpeg_add_associated_image name path off s = (Ok true, s1) ->
  exists s0 w h,
    _openslide_jpeg_read_dimensions path off (declared s) = (Ok true, s0)
    /\ out_w s0 = Some w
    /\ out_h s0 = Some h
    /\ associated_images s1
       = <[name := mkAssociatedImage jpeg_associated_ops w h path off]>
           (associated_images s).
Proof.
  rewrite add_associated_image_eq.
  destruct (read_dimensions_total path off (declared s))
    as (ok & s0 & -> & Him & Hdims).
  destruct ok; [|discriminate].
  destruct Hdims as (w & h & Hw & Hh). rewrite Hw, Hh.
  intros [= <-]. exists s0, w, h. repeat split; try done.
  cbn [with_images associated_images]. by rewrite Him.
Qed.

(** X12: the registry is keyed by name and the last registration wins:
    after two registrations that succeed, the name of the second maps to
    the file and offset of the second, the name of the first still maps
    to the first if the names differ, and every other name maps to what
    it mapped to before. *)
Theorem registry_last_write_wins name1 path1 off1 name2 path2 off2 s s1 s2 :
  _openslide_jpeg_add_associated_image name1 path1 off1 s = (Ok true, s1) ->
  _openslide_jpeg_add_associated_image name2 path2 off2 s1 = (Ok true, s2) ->
  (exists w h,
     associated_images s2 !! name2
     = Some (mkAssociatedImage jpeg_associated_ops w h path2 off2))
  /\ (name1 <> name2 ->
      exists w h,
        associated_images s2 !! name1
        = Some (mkAssociatedImage jpeg_associated_ops w h path1 off1))
  /\ (forall name,
        name <> name1 -> name <> name2 ->
        associated_images s2 !! name = associated_images s !! name).
Proof.
  intros H1 H2.
  destruct (add_success _ _ _ _ _ H1) as (? & w1 & h1 & _ & _ & _ & Hr1).
  destruct (add_success _ _ _ _ _ H2) as (? & w2 & h2 & _ & _ & _ & Hr2).
  rewrite Hr2, Hr1. repeat split.
  - exists w2, h2. by rewrite lookup_insert_eq.
  - intros Hne. exists w1, h1.
    rewrite lookup_insert_ne by done. by rewrite lookup_insert_eq.
  - intros name Hn1 Hn2. by rewrite !lookup_insert_ne.
Qed.

Lemma closed_probe_then_decode f' fuel sa s0 w h sb :
  closing (jpeg_get_dimensions f' None 0 sa) = (Ok true, s0) ->
  out_w s0 = Some w ->
  out_h s0 = Some h ->
  decodable f' None 0 false fuel ->
  exists s3, closing (jpeg_decode fuel f' None 0 false w h sb) = (Ok true, s3).
Proof.
  intros Hprobe Hw Hh (t & c & m & r & t' & c' & m' & Hst & Hr & Hsc & Hd).
  rewrite jpeg_get_dimensions_eq in Hprobe.
  destruct (lib_probe f' None 0) as [t1 c1 m1 r1 | t1 c1 text] eqn:Hp;
    [|discriminate].
  destruct (header_rejected r1); [discriminate|].
  cbn [closing] in Hprobe. injection Hprobe as <-.
  cbn [logged session_end out_w out_h] in Hw, Hh.
  injection Hw as <-. injection Hh as <-.
  destruct (Hd _ _ _ _ eq_refl) as [Hwd Hht].
  destruct (jpeg_decode_spec fuel f' None 0 false
              (to_int32 (output_width c1)) (to_int32 (output_height c1)) sb)
    as (m32 & m8 & _ & ->).
  rewrite Hst, Hr. unfold dimension_mismatch.
  rewrite Hwd, Hht, !Z.eqb_refl. cbn [negb orb]. rewrite Hsc.
  by eexists.
Qed.

(** X13: an entry that registration has inserted can be materialised: if
    the library decodes the file at that offset, reading the entry's
    pixels with [get_associated_image_data] returns true, because the
    entry carries the dimensions the decoder will find. *)
Theorem registered_image_decodes
    name path off fuel f s s1 img s2 :
  _openslide_jpeg_add_associated_image name path off s = (Ok true, s1) ->
  associated_images s1 !! name = Some img ->
  _openslide_fopen path = inl f ->
  decodable (Some (if off =? 0 then f else mkFILE (f_path f) off))
            None 0 false fuel ->
  exists s3, get_associated_image_data fuel img s2 = (Ok true, s3).
Proof.
  intros Hadd Himg Hf Hdec.
  destruct (add_success _ _ _ _ _ Hadd) as (s0 & w & h & Hprobe & Hw & Hh
                                            & Hreg).
  rewrite Hreg, lookup_insert_eq in Himg. injection Himg as <-.
  unfold get_associated_image_data. cbn [filename offset img_w img_h].
  rewrite read_dimensions_eq, Hf in Hprobe. rewrite read_eq, Hf.
  destruct (off =? 0).
  - eapply closed_probe_then_decode; eauto.
  - destruct (fseeko_fails f off); [discriminate|].
    eapply closed_probe_then_decode; eauto.
Qed.

(** X14: called with an empty error slot, the decoder leaves it empty when
    it returns true, and when it returns false it leaves there an error
    of domain [OPENSLIDE_ERROR] and code [OPENSLIDE_ERROR_FAILED] whose
    message is the header message, the mismatch message for the expected
    dimensions, or a text the library raised during the session. *)
Theorem decode_false_iff_error fuel f buf buflen grayscale w h s b s' :
  caller_err s = Some None ->
  jpeg_decode fuel f buf buflen grayscale w h s = (Ok b, s') ->
  if b then caller_err s' = Some None
  else
    exists e,
      caller_err s' = Some (Some e)
      /\ domain e = OPENSLIDE_ERROR
      /\ code e = OPENSLIDE_ERROR_FAILED
      /\ (message e = "Couldn't read JPEG header"
          \/ (exists width height,
                message e = mismatch_message w h width height)
          \/ (exists t c text,
                message e = text
                /\ (lib_start f buf buflen grayscale = Raised t c text
                    \/ exists t0 c0 m0 r0,
                         lib_start f buf buflen grayscale
                         = Returned t0 c0 m0 r0
                         /\ lib_scan fuel c0 m0 = Raised t c text))).
Proof.
  intros He.
  destruct (jpeg_decode_spec fuel f buf buflen grayscale w h s)
    as (m32 & m8 & _ & ->).
  destruct (lib_start f buf buflen grayscale) as [t c m r | t c text]
    eqn:Hst;
    [destruct (header_rejected r);
     [| destruct (dimension_mismatch w h c);
        [| destruct (lib_scan fuel c m) as [t' c' m' [] | t' c' text]
             eqn:Hsc]] |];
    intros [= <- <-];
    cbn [session_end with_dest caller_err]; rewrite ?propagate_is_set, He;
    cbn [g_set_error]; try done.
  - eexists. repeat split. by left.
  - eexists. repeat split. right; left. by do 2 eexists.
  - eexists. repeat split. right; right. exists t', c', text.
    split; [done|]. right. by repeat eexists.
  - eexists. repeat split. right; right. exists t, c, text.
    split; [done|]. by left.
Qed.

End DecoderFacts.

Lemma warning_escalated_to_fatal_witness :
  my_emit_message (-1) Toy.s_begun
    = (Jump (A:=unit),
       with_cinfo Toy.s_begun
         (Some (bridge "" (Some (library_error "")))) 
         (fields (cinfo Toy.s_begun))).
Proof.
  pose proof (warning_escalated_to_fatal
                Toy.s_begun "" None (-1)
                (fields (cinfo Toy.s_begun)) "" (LibReturn
                (fields (cinfo Toy.s_begun)) tt) eq_refl)
    as (H1 & H2 & _).
  rewrite H1. exact H2.
Defined.

Lemma propagate_error_once_witness :
  exists s1,
    _openslide_jpeg_propagate_error Toy.s_caught = (Ok tt, s1)
    /\ caller_err s1 = Some (Some (library_error "Bogus marker length")).
Proof.
  destruct (propagate_error_once Toy.s_caught _ eq_refl)
    as (_ & s1 & H1 & H2 & _).
  exists s1. split; [exact H1 | exact H2].
Defined.

(** ** The theorems at concrete sources *)

(** A 64x64 source decoded with expected dimensions 32x32. *)
Lemma dimension_mismatch_fails_witness :
  exists s',
    jpeg_decode (lib:=Toy.lib (Toy.good 64 64)) 10 None None 0 false 32 32
                Toy.s0
    = (Ok false, s')
    /\ caller_err s'
       = Some (Some (mkGError OPENSLIDE_ERROR OPENSLIDE_ERROR_FAILED
           "Dimensional mismatch reading JPEG, expected 32x32, got 64x64"))
    /\ dest32 s' = ∅.
Proof.
  edestruct (dimension_mismatch_fails (lib:=Toy.lib (Toy.good 64 64))
               10 None None 0 false 32 32 Toy.s0)
    as (s' & H1 & H2 & _ & _ & H3 & _).
  - reflexivity.
  - reflexivity.
  - left. vm_compute. discriminate.
  - exists s'. split; [exact H1|]. split; [exact H2 | exact H3].
Defined.

(** A 2x2 source: the probe reports (2, 2) and the decoder accepts it. *)
Lemma probe_then_decode_succeeds_witness :
  exists s3,
    jpeg_decode (lib:=Toy.lib (Toy.good 2 2)) 2 None None 0 false 2 2 Toy.s0
    = (Ok true, s3).
Proof.
  eapply (probe_then_decode_succeeds (lib:=Toy.lib (Toy.good 2 2))
            2 2 None None 0 false Toy.s0 _ 2 2 Toy.s0).
  - vm_compute. reflexivity.
  - reflexivity.
  - reflexivity.
  - do 7 eexists. split; [vm_compute; reflexivity|].
    split; [reflexivity|]. split; [vm_compute; reflexivity|].
    intros t1 c1 m1 r1 H. vm_compute in H. injection H as <- <- <- <-.
    split; reflexivity.
  - lia.
Defined.

(** A header read that returns [JPEG_SUSPENDED]. *)
Lemma header_outcomes_witness :
  exists s',
    jpeg_get_dimensions
      (lib:=Toy.lib (Toy.mkScript JPEG_SUSPENDED 2 2 None 0 None))
      None None 0 Toy.s0
    = (Ok false, s')
    /\ caller_err s' = Some (Some header_error)
    /\ trace s'
       = [EvSliceNew; EvJpeg L_create_decompress; EvJpeg L_mem_src;
          EvJpeg L_read_header; EvJpeg L_destroy_decompress; EvSliceFree].
Proof.
  edestruct (header_outcomes
               (lib:=Toy.lib (Toy.mkScript JPEG_SUSPENDED 2 2 None 0 None))
               None None 0 _ _ _ _ 1 false 2 2 Toy.s0 eq_refl)
    as (Ht & _ & _ & H & _).
  eexists. split; [exact H|]. rewrite Ht. split; reflexivity.
Defined.

(** The probe of a 64x64 source, called with an empty slot. *)
Lemma probe_dimensions_or_error_witness :
  exists s',
    jpeg_get_dimensions (lib:=Toy.lib (Toy.good 64 64)) None None 0 Toy.s0
    = (Ok true, s')
    /\ out_w s' = Some 64 /\ out_h s' = Some 64
    /\ caller_err s' = Some None.
Proof.
  destruct (probe_dimensions_or_error (lib:=Toy.lib (Toy.good 64 64))
              None None 0 Toy.s0)
    as (b & s' & H & Hcause & _).
  vm_compute in Hcause.
  destruct Hcause as (-> & He & _ & _ & Hdims).
  destruct Hdims as [Hw Hh]; [done | done |].
  exists s'. split; [exact H|]. split; [exact Hw|]. split; [exact Hh|].
  exact He.
Defined.

(** A seek to a negative offset. *)
Lemma seek_only_for_nonzero_offset_witness :
  _openslide_jpeg_read (lib:=Toy.lib (Toy.good 2 2)) (fs:=Toy.fs)
                       2 "slide.tif" (-1) 2 2 Toy.s0
  = (Ok false, seek_failure (fs:=Toy.fs) Toy.s0 "slide.tif" (-1)).
Proof.
  exact (proj1 (proj2
    (seek_only_for_nonzero_offset (lib:=Toy.lib (Toy.good 2 2)) (fs:=Toy.fs)
       2 "slide.tif" (-1) 2 2 (mkFILE "slide.tif" 0) Toy.s0 eq_refl))).
Defined.

(** The decode of a 2x2 solid red source: four opaque red pixels. *)
Example decode_solid_red :
  exists s',
    jpeg_decode (lib:=Toy.lib (Toy.good 2 2)) 2 None None 0 false 2 2 Toy.s0
    = (Ok true, s')
    /\ dest32 s' !! 0 = Some 0xFFFF0000
    /\ dest32 s' !! 1 = Some 0xFFFF0000
    /\ dest32 s' !! 2 = Some 0xFFFF0000
    /\ dest32 s' !! 3 = Some 0xFFFF0000
    /\ dest32 s' !! 4 = None.
Proof. eexists. split; [vm_compute; reflexivity|]. by vm_compute. Qed.

(** The same source in grayscale: four bytes of luma 76. *)
Example decode_solid_red_gray :
  exists s',
    _openslide_jpeg_decode_buffer_gray (lib:=Toy.lib (Toy.good 2 2))
      2 None 0 2 2 Toy.s0
    = (Ok true, s')
    /\ dest8 s' !! 3 = Some "L"%byte
    /\ dest32 s' = ∅.
Proof. eexists. split; [vm_compute; reflexivity|]. by vm_compute. Qed.

(** A warning from [jpeg_read_scanlines] ends the decode with the
    library's message. *)
Example decode_warning :
  exists s',
    jpeg_decode
      (lib:=Toy.lib (Toy.mkScript 1 2 2 (Some L_read_scanlines) (-1) None))
      2 None None 0 false 2 2 Toy.s0
    = (Ok false, s')
    /\ caller_err s'
       = Some (Some (library_error "Premature end of JPEG file")).
Proof. eexists. split; [vm_compute; reflexivity|]. by vm_compute. Qed.

(** Registration of an associated image at offset 4096. *)
Example register_label :
  exists s',
    _openslide_jpeg_add_associated_image
      (lib:=Toy.lib (Toy.good 64 64)) (fs:=Toy.fs)
      "label" "slide.tif" 4096 Toy.s0
    = (Ok true, s')
    /\ associated_images s' !! "label"
       = Some (mkAssociatedImage jpeg_associated_ops 64 64 "slide.tif" 4096).
Proof. eexists. split; [vm_compute; reflexivity|]. by vm_compute. Qed.

(** ** The further properties at concrete sources *)

Lemma toy_delivers_red w h :
  delivers (lib:=Toy.lib (Toy.good w h)) Toy.red w h 3.
Proof.
  intros c m HW HH HC Hy.
  exists (Toy.next_line c), m, 1, (Toy.red_rows c).
  split; [reflexivity|]. split; [lia|]. split; [reflexivity|].
  split; [cbn; lia|]. split; [exact HW|]. split; [exact HH|].
  split; [exact HC|].
  intros j col _. unfold Toy.red_rows, Toy.red. by rewrite HC.
Defined.

Lemma toy_delivers_luma w h :
  delivers (lib:=Toy.lib (Toy.good w h)) Toy.red_luma w h 1.
Proof.
  intros c m HW HH HC Hy.
  exists (Toy.next_line c), m, 1, (Toy.red_rows c).
  split; [reflexivity|]. split; [lia|]. split; [reflexivity|].
  split; [cbn; lia|]. split; [exact HW|]. split; [exact HH|].
  split; [exact HC|].
  intros j col _. unfold Toy.red_rows, Toy.red_luma. by rewrite HC.
Defined.

(** A batch of two rows of two red pixels, stored from word 10 on. *)
Lemma copy_rows_rgb_layout_witness :
  exists m32,
    copy_rows (lib_private:=unit) 2 0 Toy.red 10 0
              (with_cinfo Toy.s0 None (mkFields JCS_RGB 2 2 3 1 0 tt))
    = (Ok (14, 0),
       with_dest (with_cinfo Toy.s0 None (mkFields JCS_RGB 2 2 3 1 0 tt))
                 m32 ∅)
    /\ m32 !! 13 = Some 0xFFFF0000.
Proof.
  destruct (copy_rows_rgb_layout (lib_private:=unit) 2 0 Toy.red 10 0
              (with_cinfo Toy.s0 None (mkFields JCS_RGB 2 2 3 1 0 tt)))
    as (m32 & H & Hm & _).
  - cbn. lia.
  - cbn. lia.
  - exists m32. split; [exact H|]. apply (Hm 1 1); cbn; lia.
Defined.

Lemma copy_rows_gray_layout_witness :
  exists m8,
    copy_rows (lib_private:=unit) 2 0 Toy.red_luma 0 10
              (with_cinfo Toy.s0 None (mkFields JCS_GRAYSCALE 2 2 1 1 0 tt))
    = (Ok (0, 14),
       with_dest
         (with_cinfo Toy.s0 None (mkFields JCS_GRAYSCALE 2 2 1 1 0 tt))
         ∅ m8)
    /\ m8 !! 13 = Some "L"%byte.
Proof.
  destruct (copy_rows_gray_layout (lib_private:=unit) 2 0 Toy.red_luma 0 10
              (with_cinfo Toy.s0 None (mkFields JCS_GRAYSCALE 2 2 1 1 0 tt)))
    as (m8 & H & Hm & _).
  - reflexivity.
  - cbn. lia.
  - exists m8. split; [exact H|]. apply (Hm 1 1); cbn; lia.
Defined.




(** A fatal error while the header is read. *)
Lemma header_phase_error_reported_witness :
  exists s',
    jpeg_get_dimensions
      (lib:=Toy.lib (Toy.mkScript 1 2 2 None 0 (Some L_read_header)))
      None None 0 Toy.s0
    = (Ok false, s')
    /\ caller_err s' = Some (Some (library_error "Bogus marker length")).
Proof.
  edestruct (header_phase_error_reported
               (lib:=Toy.lib (Toy.mkScript 1 2 2 None 0 (Some L_read_header)))
               2 None None 0 false 2 2 Toy.s0)
    as (_ & H & _).
  - reflexivity.
  - eexists. split; [exact H | reflexivity].
Defined.

(** A warning from the first batch. *)
Lemma scan_error_reported_witness :
  exists s',
    jpeg_decode
      (lib:=Toy.lib (Toy.mkScript 1 2 2 (Some L_read_scanlines) (-1) None))
      2 None None 0 false 2 2 Toy.s0
    = (Ok false, s')
    /\ caller_err s'
       = Some (Some (library_error "Premature end of JPEG file")).
Proof.
  edestruct (scan_error_reported
               (lib:=Toy.lib
                       (Toy.mkScript 1 2 2 (Some L_read_scanlines) (-1) None))
               2 None None 0 false 2 2 Toy.s0)
    as (s' & H & He & _).
  - reflexivity.
  - reflexivity.
  - reflexivity.
  - reflexivity.
  - exists s'. split; [exact H | exact He].
Defined.

(** A path that cannot be opened. *)
Lemma open_failure_propagates_witness :
  exists s',
    _openslide_jpeg_add_associated_image
      (lib:=Toy.lib (Toy.good 2 2)) (fs:=Toy.fs)
      "label" "missing.tif" 4096 Toy.s0
    = (Ok false, s')
    /\ caller_err s'
       = Some (Some (mkGError G_FILE_ERROR 4
           "Can't read label associated image: Couldn't open missing.tif")).
Proof.
  edestruct (open_failure_propagates
               (lib:=Toy.lib (Toy.good 2 2)) (fs:=Toy.fs)
               "label" "missing.tif" 4096 2 2 2 _ Toy.s0 eq_refl)
    as (_ & _ & s' & H & He & _).
  exists s'. split; [exact H | exact He].
Defined.

(** A file probed at offset 4096. *)
Lemma file_closed_on_every_return_witness :
  exists b s' t,
    _openslide_jpeg_read_dimensions
      (lib:=Toy.lib (Toy.good 2 2)) (fs:=Toy.fs) "slide.tif" 4096 Toy.s0
    = (Ok b, s')
    /\ trace s' = EvFopen "slide.tif" :: t ++ [EvFclose].
Proof.
  destruct (file_closed_on_every_return
              (lib:=Toy.lib (Toy.good 2 2)) (fs:=Toy.fs)
              2 "slide.tif" 4096 2 2 _ Toy.s0 eq_refl)
    as ((b & s' & t & H & Ht & _) & _).
  exists b, s', t. split; [exact H | exact Ht].
Defined.

(** Two registrations under the name "label". *)
Lemma registry_last_write_wins_witness :
  exists s1 s2 w h,
    _openslide_jpeg_add_associated_image
      (lib:=Toy.lib (Toy.good 2 2)) (fs:=Toy.fs)
      "label" "a.tif" 0 Toy.s0 = (Ok true, s1)
    /\ _openslide_jpeg_add_associated_image
         (lib:=Toy.lib (Toy.good 2 2)) (fs:=Toy.fs)
         "label" "b.tif" 512 s1 = (Ok true, s2)
    /\ associated_images s2 !! "label"
       = Some (mkAssociatedImage jpeg_associated_ops w h "b.tif" 512).
Proof.
  do 2 eexists.
  edestruct (registry_last_write_wins
               (lib:=Toy.lib (Toy.good 2 2)) (fs:=Toy.fs)
               "label" "a.tif" 0 "label" "b.tif" 512 Toy.s0)
    as ((w & h & Hl) & _).
  - vm_compute. reflexivity.
  - vm_compute. reflexivity.
  - exists w, h. split; [vm_compute; reflexivity|].
    split; [vm_compute; reflexivity | exact Hl].
Defined.

(** An image registered at offset 4096 and then read. *)
Lemma registered_image_decodes_witness :
  exists s1 img s3,
    _openslide_jpeg_add_associated_image
      (lib:=Toy.lib (Toy.good 2 2)) (fs:=Toy.fs)
      "label" "slide.tif" 4096 Toy.s0 = (Ok true, s1)
    /\ associated_images s1 !! "label" = Some img
    /\ get_associated_image_data
         (lib:=Toy.lib (Toy.good 2 2)) (fs:=Toy.fs) 2 img s1
       = (Ok true, s3).
Proof.
  do 2 eexists.
  edestruct (registered_image_decodes
               (lib:=Toy.lib (Toy.good 2 2)) (fs:=Toy.fs)
               "label" "slide.tif" 4096 2 (mkFILE "slide.tif" 0) Toy.s0)
    as (s3 & H).
  - vm_compute. reflexivity.
  - vm_compute. reflexivity.
  - reflexivity.
  - do 7 eexists. split; [vm_compute; reflexivity|].
    split; [reflexivity|]. split; [vm_compute; reflexivity|].
    intros t1 c1 m1 r1 Hp. vm_compute in Hp. injection Hp as <- <- <- <-.
    split; reflexivity.
  - exists s3. split; [vm_compute; reflexivity|].
    split; [vm_compute; reflexivity | exact H].
Defined.

(** A decode that fails on the dimensions, from an empty slot. *)
Lemma decode_false_iff_error_witness :
  exists e,
    caller_err
      (jpeg_decode (lib:=Toy.lib (Toy.good 64 64))
                   1 None None 0 false 32 32 Toy.s0).2
    = Some (Some e)
    /\ domain e = OPENSLIDE_ERROR.
Proof.
  destruct (decode_false_iff_error (lib:=Toy.lib (Toy.good 64 64))
              1 None None 0 false 32 32 Toy.s0 false
              (jpeg_decode (lib:=Toy.lib (Toy.good 64 64))
                           1 None None 0 false 32 32 Toy.s0).2
              eq_refl)
    as (e & He & Hd & _).
  - vm_compute. reflexivity.
  - exists e. split; [exact He | exact Hd].
Defined.
